(** * Shopping-cart pricing core of the [cart-prototype] project

    A shallow embedding of
    - [src/composite/cart-components.ts]  (classes [Product] and [Bundle]),
    - [src/models/interfaces.ts]          (the data interfaces and class [Cart]),
    - [src/strategies/price-strategies.ts] (the four price strategies),
    together with the properties stated about them.

    Conventions of the embedding.
    - A TypeScript [number] is embedded twice.  In the main development it
      is an exact rational ([Q]), compared with [==] ([Qeq]); this carries
      the structural and algebraic properties, where the rounding error of
      a double, NaN and the infinities play no part.  In module [Double] it
      is an IEEE-754 binary64 ([float]); this carries the properties that
      depend on what [Math.round] and [Math.floor] are given, which are
      double products.
    - An optional field ([isSaleItem?], [birthday?]) is an [option]; a test
      such as [if (item.isSaleItem)] is JavaScript truthiness.
    - [new Date()] is an explicit argument [today]; of a [Date] only
      [getMonth()] and [getDate()] are observed by the code.
    - An object reference is a natural number carried by the component it
      denotes; [===] on components compares these references.
    - Arrays are lists; [forEach], [reduce] and a [for .. of] loop are
      [fold_left] or a recursive function over the list; the
      insertion-ordered [Map] of the volume discount is an association
      list.
    - One call of [calculateTotal] or [calculateBonusPoints] sees one value
      of [today]. *)

From Stdlib Require Import QArith Qround Qminmax Qabs ZArith List String Bool Lia Lqa.
From Stdlib Require Import Setoid Morphisms.
From Stdlib Require Floats Uint63.
Import ListNotations.

Set Warnings "-inexact-float".

Local Open Scope Q_scope.

(** ** JavaScript helpers *)

(** Truthiness of an optional boolean: [undefined] and [false] are falsy. *)
Definition truthy (b : option bool) : bool :=
  match b with
  | Some true => true
  | _ => false
  end.

(** [x > y] on numbers. *)
Definition Qgt_bool (x y : Q) : bool := negb (Qle_bool x y).

(** [x >= y] on numbers. *)
Definition Qge_bool (x y : Q) : bool := Qle_bool y x.

(** Sum of a list of numbers, the mathematical [Σ]. *)
Definition sumQ (l : list Q) : Q := fold_right Qplus 0 l.

(** ** Data model ([models/interfaces.ts]) *)

Module CartItem.
Record t : Type := mk
  { id : string;
    name : string;
    price : Q;
    quantity : Q;
    isSaleItem : option bool;
    isEligibleForBonus : option bool }.
End CartItem.

(** The two accessors of [Date] that the code calls. *)
Module Date.
Record t : Type := mk
  { getMonth : nat;
    getDate : nat }.
End Date.

Module Customer.
Record t : Type := mk
  { id : string;
    email : string;
    isNewCustomer : bool;
    birthday : option Date.t;
    bonusPoints : Q }.
End Customer.

Module PriceContext.
Record t : Type := mk
  { customer : Customer.t;
    cartItems : list CartItem.t;
    intermediateAmount : Q }.
End PriceContext.

(** ** The composite ([composite/cart-components.ts]) *)

(** [Product] is the leaf around one [CartItem]; [Bundle] carries its name,
    quantity, discount and child array.  The first field is the reference of
    the object. *)
Unset Elimination Schemes.
Inductive CartComponent : Type :=
| Product (ref : nat) (item : CartItem.t)
| Bundle (ref : nat) (name : string) (quantity : Q) (bundleDiscount : Q)
         (components : list CartComponent).
Set Elimination Schemes.

Definition ref_of (c : CartComponent) : nat :=
  match c with
  | Product r _ => r
  | Bundle r _ _ _ _ => r
  end.

(** [new Bundle(name, quantity = 1, bundleDiscount = 0)] for the object at
    reference [r]: both numeric arguments are optional, the child array starts
    empty and nothing is validated. *)
Definition new_Bundle (r : nat) (name : string)
           (quantity bundleDiscount : option Q) : CartComponent :=
  Bundle r name
         (match quantity with Some q => q | None => 1 end)
         (match bundleDiscount with Some d => d | None => 0 end)
         [].

Definition isComposite (c : CartComponent) : bool :=
  match c with
  | Product _ _ => false
  | Bundle _ _ _ _ _ => true
  end.

Definition getQuantity (c : CartComponent) : Q :=
  match c with
  | Product _ item => CartItem.quantity item
  | Bundle _ _ quantity _ _ => quantity
  end.

(** [Product.getPrice] and [Bundle.getPrice]. *)
Fixpoint getPrice (c : CartComponent) : Q :=
  match c with
  | Product _ item => CartItem.price item * CartItem.quantity item
  | Bundle _ _ quantity bundleDiscount components =>
      let totalPrice :=
        fold_left (fun totalPrice component => totalPrice + getPrice component)
                  components 0 in
      let totalPrice :=
        if Qgt_bool bundleDiscount 0
        then totalPrice * (1 - bundleDiscount)
        else totalPrice in
      totalPrice * quantity
  end.

(** [Bundle.getAllItems], extended to a leaf as [Cart.getAllCartItems] treats
    one: a [Product] contributes its item, a [Bundle] the items of its
    children, depth first. *)
Fixpoint getAllItems (c : CartComponent) : list CartItem.t :=
  match c with
  | Product _ item => [item]
  | Bundle _ _ _ _ components =>
      fold_left (fun items component => items ++ getAllItems component)
                components []
  end.

(** ** Reference definition of the aggregate value *)

(** The recursive definition in the words of the specification: a leaf is
    worth unit price times quantity, a group the sum of its children times
    [(1 - discount)] times its multiplier. *)
Fixpoint aggregateValue (c : CartComponent) : Q :=
  match c with
  | Product _ item => CartItem.price item * CartItem.quantity item
  | Bundle _ _ q d children =>
      sumQ (map aggregateValue children) * (1 - d) * q
  end.

(** Every group in the tree has a discount of at least zero. *)
Fixpoint discounts_nonneg (c : CartComponent) : bool :=
  match c with
  | Product _ _ => true
  | Bundle _ _ _ d children =>
      Qge_bool d 0 && forallb discounts_nonneg children
  end.

(** The ranges of the data model: a price is at least 0, a quantity at least
    1, a discount lies in [[0,1)]. *)
Fixpoint in_range (c : CartComponent) : bool :=
  match c with
  | Product _ item =>
      Qge_bool (CartItem.price item) 0 && Qge_bool (CartItem.quantity item) 1
  | Bundle _ _ q d children =>
      Qge_bool q 1 && Qge_bool d 0 && Qgt_bool 1 d && forallb in_range children
  end.

(** The flattened item list in the words of the specification: every item
    reachable through the leaves, depth first, groups not represented. *)
Fixpoint flattenItems (c : CartComponent) : list CartItem.t :=
  match c with
  | Product _ item => [item]
  | Bundle _ _ _ _ children => flat_map flattenItems children
  end.

(** ** Child arrays: [push], [indexOf], [splice] *)

(** [a === b] on two component objects: the same reference. *)
Definition strict_eq (a b : CartComponent) : bool :=
  Nat.eqb (ref_of a) (ref_of b).

(** [array.indexOf(component)] searched from position [i] on: the index of
    the first element strictly equal to [component], [-1] when there is none. *)
Fixpoint indexOf_from (i : Z) (array : list CartComponent)
         (component : CartComponent) : Z :=
  match array with
  | [] => (-1)%Z
  | x :: rest =>
      if strict_eq x component then i
      else indexOf_from (i + 1)%Z rest component
  end.

Definition indexOf (array : list CartComponent) (component : CartComponent) : Z :=
  indexOf_from 0%Z array component.

(** [array.splice(start, deleteCount)] for [0 <= start]: the array that is
    left once [deleteCount] elements from position [start] are taken out. *)
Definition splice (array : list CartComponent) (start deleteCount : Z)
  : list CartComponent :=
  firstn (Z.to_nat start) array
  ++ skipn (Z.to_nat (start + deleteCount)) array.

(** The body shared by [Bundle.remove] and [Cart.removeComponent]. *)
Definition remove_from (components : list CartComponent)
           (component : CartComponent) : list CartComponent :=
  let index := indexOf components component in
  if (index >? -1)%Z then splice components index 1%Z else components.

(** [Bundle.add]; [Product] has no such method and is left as it is. *)
Definition Bundle_add (this component : CartComponent) : CartComponent :=
  match this with
  | Bundle r name quantity bundleDiscount components =>
      Bundle r name quantity bundleDiscount (components ++ [component])
  | Product _ _ => this
  end.

(** [Bundle.remove]; [Product] has no such method and is left as it is. *)
Definition Bundle_remove (this component : CartComponent) : CartComponent :=
  match this with
  | Bundle r name quantity bundleDiscount components =>
      Bundle r name quantity bundleDiscount (remove_from components component)
  | Product _ _ => this
  end.

(** ** Price strategies ([strategies/price-strategies.ts]) *)

(** The body of an [apply] method runs with the value of [new Date()] and
    the context object it was handed; it yields its return value together
    with the context object as the body leaves it. *)
Definition Method (A : Type) : Type :=
  Date.t -> PriceContext.t -> A * PriceContext.t.

Definition ret {A : Type} (a : A) : Method A :=
  fun _ context => (a, context).

Definition bind {A B : Type} (m : Method A) (k : A -> Method B) : Method B :=
  fun today context => let (a, context') := m today context in k a today context'.

(** Reading from the context object. *)
Definition read {A : Type} (field : PriceContext.t -> A) : Method A :=
  fun _ context => (field context, context).

(** [new Date()]. *)
Definition new_Date : Method Date.t :=
  fun today context => (today, context).

Notation "x <- m ;; k" := (bind m (fun x => k))
  (at level 61, m at next level, right associativity).

(** The value an [apply] returns, and the context it leaves behind. *)
Definition result {A : Type} (m : Method A) (today : Date.t)
           (context : PriceContext.t) : A :=
  fst (m today context).

Definition context_after {A : Type} (m : Method A) (today : Date.t)
           (context : PriceContext.t) : PriceContext.t :=
  snd (m today context).

(** The interface [PriceModificationStrategy]; [getDescription] only labels
    a strategy in reports and is not modelled. *)
Module PriceModificationStrategy.
Record t : Type := mk
  { apply : Q -> Method Q }.
End PriceModificationStrategy.

(** The private [isBirthday], written twice with the same body in
    [BirthdayDiscountStrategy] and in [Cart]; [today] is its [new Date()]. *)
Definition isBirthday (today birthday : Date.t) : bool :=
  Nat.eqb (Date.getMonth birthday) (Date.getMonth today)
  && Nat.eqb (Date.getDate birthday) (Date.getDate today).

Module NewCustomerDiscountStrategy.
Definition discountPercentage : Q := 5 # 100.
Definition maxDiscount : Q := 100.

Definition apply (amount : Q) : Method Q :=
  isNewCustomer <- read (fun context =>
    Customer.isNewCustomer (PriceContext.customer context)) ;;
  if negb isNewCustomer then ret amount
  else
    hasSaleItems <- read (fun context =>
      existsb (fun item => truthy (CartItem.isSaleItem item))
              (PriceContext.cartItems context)) ;;
    if hasSaleItems then ret amount
    else
      let discount := Qmin (amount * discountPercentage) maxDiscount in
      ret (amount - discount).

Definition strategy : PriceModificationStrategy.t :=
  PriceModificationStrategy.mk apply.
End NewCustomerDiscountStrategy.

Module BirthdayDiscountStrategy.
Definition discountPercentage : Q := 3 # 100.

Definition apply (amount : Q) : Method Q :=
  birthday <- read (fun context =>
    Customer.birthday (PriceContext.customer context)) ;;
  match birthday with
  | None => ret amount
  | Some birthday =>
      today <- new_Date ;;
      if negb (isBirthday today birthday) then ret amount
      else
        isNewCustomer <- read (fun context =>
          Customer.isNewCustomer (PriceContext.customer context)) ;;
        if isNewCustomer then ret amount
        else
          hasSaleItems <- read (fun context =>
            existsb (fun item => truthy (CartItem.isSaleItem item))
                    (PriceContext.cartItems context)) ;;
          if hasSaleItems then ret amount
          else
            let discount := amount * discountPercentage in
            ret (amount - discount)
  end.

Definition strategy : PriceModificationStrategy.t :=
  PriceModificationStrategy.mk apply.
End BirthdayDiscountStrategy.

Module VATStrategy.
Definition vatRate : Q := 77 # 1000.

Definition apply (amount : Q) : Method Q :=
  ret (amount * (1 + vatRate)).

Definition strategy : PriceModificationStrategy.t :=
  PriceModificationStrategy.mk apply.
End VATStrategy.

(** The [Map<string, number>] of the volume discount: entries in insertion
    order, which is the order [Map.forEach] visits them in. *)
Module JsMap.
Definition t : Type := list (string * Q).

Fixpoint get (m : t) (key : string) : option Q :=
  match m with
  | [] => None
  | (k, v) :: rest => if String.eqb k key then Some v else get rest key
  end.

(** [set] overwrites the value of a key that is present, keeping its
    position, and appends a key that is new. *)
Fixpoint set (m : t) (key : string) (value : Q) : t :=
  match m with
  | [] => [(key, value)]
  | (k, v) :: rest =>
      if String.eqb k key then (k, value) :: rest
      else (k, v) :: set rest key value
  end.

Definition keys (m : t) : list string := map fst m.
End JsMap.

(** [x || 0] for the result of [Map.get]: [undefined] and [0] are falsy. *)
Definition or_zero (x : option Q) : Q :=
  match x with
  | Some q => if Qeq_bool q 0 then 0 else q
  | None => 0
  end.

Module VolumeDiscountStrategy.
Record Tier : Type := mkTier
  { minQuantity : Q;
    discountPercentage : Q }.

Definition discountTiers : list Tier :=
  [ mkTier 10 (5 # 100);
    mkTier 20 (10 # 100);
    mkTier 50 (20 # 100) ].

Definition getDiscountForQuantity (quantity : Q) : Q :=
  fold_left
    (fun applicableDiscount tier =>
       if Qge_bool quantity (minQuantity tier)
       then discountPercentage tier
       else applicableDiscount)
    discountTiers 0.

(** The first [forEach]: quantities summed per item id. *)
Definition groupQuantities (cartItems : list CartItem.t) : JsMap.t :=
  fold_left
    (fun itemQuantities item =>
       let currentQuantity :=
         or_zero (JsMap.get itemQuantities (CartItem.id item)) in
       JsMap.set itemQuantities (CartItem.id item)
                 (currentQuantity + CartItem.quantity item))
    cartItems [].

(** The second [forEach]: the discount of every entry of the map. *)
Definition sumDiscounts (cartItems : list CartItem.t)
           (itemQuantities : JsMap.t) : Q :=
  fold_left
    (fun totalDiscount entry =>
       let '(itemId, quantity) := entry in
       match find (fun i => String.eqb (CartItem.id i) itemId) cartItems with
       | None => totalDiscount
       | Some item =>
           let applicableDiscount := getDiscountForQuantity quantity in
           if Qgt_bool applicableDiscount 0
           then
             let itemTotal := CartItem.price item * quantity in
             totalDiscount + itemTotal * applicableDiscount
           else totalDiscount
       end)
    itemQuantities 0.

Definition apply (amount : Q) : Method Q :=
  cartItems <- read PriceContext.cartItems ;;
  let itemQuantities := groupQuantities cartItems in
  let totalDiscount := sumDiscounts cartItems itemQuantities in
  ret (amount - totalDiscount).

Definition strategy : PriceModificationStrategy.t :=
  PriceModificationStrategy.mk apply.
End VolumeDiscountStrategy.

(** ** The cart (class [Cart]) *)

(** [Math.round] of an exact value: the nearest integer, a tie going up.
    ([Double.Math_round] is the one on doubles.) *)
Definition Math_round (x : Q) : Z := Qfloor (x + (1 # 2)).

(** [Math.floor] of an exact value.  ([Double.Math_floor] is the one on
    doubles.) *)
Definition Math_floor (x : Q) : Z := Qfloor x.

Module Cart.
Record t : Type := mk
  { customer : Customer.t;
    components : list CartComponent;
    priceStrategies : list PriceModificationStrategy.t }.

(** [new Cart(customer)]. *)
Definition new (customer : Customer.t) : t := mk customer [] [].

Definition addComponent (this : t) (component : CartComponent) : t :=
  mk (customer this) (components this ++ [component]) (priceStrategies this).

Definition removeComponent (this : t) (component : CartComponent) : t :=
  mk (customer this) (remove_from (components this) component)
     (priceStrategies this).

Definition addPriceStrategy (this : t)
           (strategy : PriceModificationStrategy.t) : t :=
  mk (customer this) (components this) (priceStrategies this ++ [strategy]).

Definition clearStrategies (this : t) : t :=
  mk (customer this) (components this) [].

Definition getSubtotal (this : t) : Q :=
  fold_left (fun total component => total + getPrice component)
            (components this) 0.

(** A top-level [Bundle] contributes [getAllItems()], a top-level
    [Product] its [getItem()]. *)
Definition getAllCartItems (this : t) : list CartItem.t :=
  fold_left
    (fun items component =>
       match component with
       | Bundle _ _ _ _ _ => items ++ getAllItems component
       | Product _ item => items ++ [item]
       end)
    (components this) [].

(** The [for (const strategy of this.priceStrategies)] loop of
    [calculateTotal], with [currentAmount] as its loop variable. *)
Fixpoint applyStrategies (today : Date.t) (customer : Customer.t)
         (allItems : list CartItem.t)
         (strategies : list PriceModificationStrategy.t)
         (currentAmount : Q) : Q :=
  match strategies with
  | [] => currentAmount
  | strategy :: rest =>
      let context :=
        PriceContext.mk customer allItems currentAmount in
      let currentAmount :=
        result (PriceModificationStrategy.apply strategy currentAmount)
               today context in
      applyStrategies today customer allItems rest currentAmount
  end.

Definition calculateTotal (today : Date.t) (this : t) : Q :=
  let currentAmount := getSubtotal this in
  let allItems := getAllCartItems this in
  let currentAmount :=
    applyStrategies today (customer this) allItems (priceStrategies this)
                    currentAmount in
  inject_Z (Math_round (currentAmount * 100)) / 100.

Definition getItemCount (this : t) : Q :=
  fold_left (fun count component => count + getQuantity component)
            (components this) 0.

Definition calculateBonusPoints (today : Date.t) (this : t) : Q :=
  let allItems := getAllCartItems this in
  let bonusPoints :=
    fold_left
      (fun bonusPoints item =>
         if truthy (CartItem.isEligibleForBonus item)
         then bonusPoints
              + inject_Z (Math_floor (CartItem.price item
                                      * CartItem.quantity item))
         else bonusPoints)
      allItems 0 in
  match Customer.birthday (customer this) with
  | Some birthday =>
      if isBirthday today birthday
      then bonusPoints * 10
      else bonusPoints
  | None => bonusPoints
  end.
End Cart.

(** ** Induction over the component tree *)

Section CartComponent_induction.
Variable P : CartComponent -> Prop.
Hypothesis P_Product : forall r item, P (Product r item).
Hypothesis P_Bundle :
  forall r name q d children,
    Forall P children -> P (Bundle r name q d children).

Fixpoint CartComponent_ind (c : CartComponent) : P c :=
  match c with
  | Product r item => P_Product r item
  | Bundle r name q d children =>
      P_Bundle r name q d children
        ((fix all (l : list CartComponent) : Forall P l :=
            match l with
            | [] => Forall_nil P
            | x :: rest => Forall_cons x (CartComponent_ind x) (all rest)
            end) children)
  end.
End CartComponent_induction.

(** ** Sample data *)

Definition sample_item (id : string) (price quantity : Q) : CartItem.t :=
  CartItem.mk id "item" price quantity None None.

Definition sample_inner : CartComponent :=
  Bundle 3 "inner" 1 (1 # 10)
         [Product 1 (sample_item "a" 10 1); Product 2 (sample_item "b" 20 1)].

Definition sample_outer : CartComponent :=
  Bundle 5 "outer" 1 (5 # 100)
         [sample_inner; Product 4 (sample_item "c" 30 1)].

Definition sample_customer : Customer.t :=
  Customer.mk "cust" "mail" false None 0.

Definition sample_cart : Cart.t :=
  Cart.mk sample_customer [sample_outer; Product 6 (sample_item "d" 100 1)] [].

Definition product_a : CartComponent := Product 1 (sample_item "a" 10 1).
Definition product_b : CartComponent := Product 2 (sample_item "b" 20 1).

(** An object with the contents of [product_a] that is another object. *)
Definition product_a_copy : CartComponent := Product 7 (sample_item "a" 10 1).

(** A cart that holds the object [product_a] twice. *)
Definition cart_with_duplicate : Cart.t :=
  Cart.mk sample_customer [product_a; product_b; product_a] [].

Definition new_customer : Customer.t :=
  Customer.mk "cust" "mail" true None 0.

(** A customer born on the first day of month 4. *)
Definition birthday_customer : Customer.t :=
  Customer.mk "cust" "mail" false (Some (Date.mk 4 1)) 0.

(** ** Purity of a strategy *)

(** [apply] as a pure function of its two arguments: whatever the clock
    shows, equal arguments give equal results, and the context is left as it
    was. *)
Definition pure_in_arguments (s : PriceModificationStrategy.t) : Prop :=
  forall (amount : Q) (context : PriceContext.t) (today1 today2 : Date.t),
    result (PriceModificationStrategy.apply s amount) today1 context
    == result (PriceModificationStrategy.apply s amount) today2 context
    /\ context_after (PriceModificationStrategy.apply s amount) today1 context
       = context.

Definition reference_set : list PriceModificationStrategy.t :=
  [ NewCustomerDiscountStrategy.strategy;
    BirthdayDiscountStrategy.strategy;
    VolumeDiscountStrategy.strategy;
    VATStrategy.strategy ].

(** ** The pipeline and the rounding in the words of the specification *)

(** The nearest multiple of 0.01, a tie going up. *)
Definition round_to_cents (x : Q) : Q :=
  inject_Z (Qfloor (x * 100 + (1 # 2))) / 100.

(** The left-to-right fold of the rules over the running amount: each rule
    is given the running amount and one fixed item list. *)
Definition pipeline (today : Date.t) (customer : Customer.t)
           (items : list CartItem.t)
           (rules : list PriceModificationStrategy.t) (start : Q) : Q :=
  fold_left
    (fun running rule =>
       result (PriceModificationStrategy.apply rule running) today
              (PriceContext.mk customer items running))
    rules start.

(** The nearest integer, a tie going away from zero. *)
Definition round_half_away_from_zero (x : Q) : Z :=
  (Z.sgn (Qnum x) * Qfloor (Qabs x + (1 # 2)))%Z.

(** The amount [calculateTotal] holds when its loop is over, before it is
    rounded. *)
Definition preRounding (today : Date.t) (cart : Cart.t) : Q :=
  Cart.applyStrategies today (Cart.customer cart) (Cart.getAllCartItems cart)
                       (Cart.priceStrategies cart) (Cart.getSubtotal cart).

Definition sumZ (l : list Z) : Z := fold_right Z.add 0%Z l.

(** ** The volume discount in the words of the specification *)

(** The fraction of the highest tier of 10 -> 5%, 20 -> 10%, 50 -> 20% whose
    minimum the quantity meets or exceeds; 0 below the lowest tier. *)
Definition tierFraction (quantity : Q) : Q :=
  if Qge_bool quantity 50 then 20 # 100
  else if Qge_bool quantity 20 then 10 # 100
  else if Qge_bool quantity 10 then 5 # 100
  else 0.

(** The ids of a list, each once, in the order of their first occurrence. *)
Fixpoint distinct (ids : list string) : list string :=
  match ids with
  | [] => []
  | k :: rest => k :: filter (fun k' => negb (String.eqb k k')) (distinct rest)
  end.

(** The quantities of all items that carry the id, summed. *)
Definition summedQuantity (items : list CartItem.t) (itemId : string) : Q :=
  sumQ (map CartItem.quantity
            (filter (fun i => String.eqb (CartItem.id i) itemId) items)).

(** The unit price of the first item of the list that carries the id. *)
Definition unitPriceOf (items : list CartItem.t) (itemId : string) : Q :=
  match find (fun i => String.eqb (CartItem.id i) itemId) items with
  | Some item => CartItem.price item
  | None => 0
  end.

Definition idDiscount (items : list CartItem.t) (itemId : string) : Q :=
  unitPriceOf items itemId * summedQuantity items itemId
  * tierFraction (summedQuantity items itemId).

Definition volumeDiscounted (amount : Q) (items : list CartItem.t) : Q :=
  amount - sumQ (map (idDiscount items) (distinct (map CartItem.id items))).

(** Membership of a key in a key list. *)
Definition mem (k : string) (ks : list string) : bool :=
  existsb (String.eqb k) ks.

(** What one entry of the map adds to [totalDiscount] in the second
    [forEach] of [VolumeDiscountStrategy.apply]. *)
Definition entryDiscount (cartItems : list CartItem.t) (entry : string * Q) : Q :=
  let '(itemId, quantity) := entry in
  match find (fun i => String.eqb (CartItem.id i) itemId) cartItems with
  | None => 0
  | Some item =>
      let applicableDiscount :=
        VolumeDiscountStrategy.getDiscountForQuantity quantity in
      if Qgt_bool applicableDiscount 0
      then CartItem.price item * quantity * applicableDiscount
      else 0
  end.

(** ** More sample data *)

(** A sale item nested two bundles deep. *)
Definition cart_with_nested_sale_item : Cart.t :=
  Cart.mk new_customer
          [ Product 1 (sample_item "a" 100 1);
            Bundle 4 "outer" 1 0
                   [Bundle 3 "inner" 1 0
                           [Product 2 (CartItem.mk "s" "item" 20 1
                                                   (Some true) None)]] ]
          [NewCustomerDiscountStrategy.strategy;
           BirthdayDiscountStrategy.strategy].

(** Two bonus-eligible lines whose values are not whole numbers. *)
Definition cart_with_bonus_items : Cart.t :=
  Cart.mk sample_customer
          [ Product 1 (CartItem.mk "a" "item" (999 # 100) 3 None (Some true));
            Bundle 3 "b" 2 (1 # 2)
                   [Product 2 (CartItem.mk "b" "item" (5 # 2) 1 None
                                           (Some true))];
            Product 4 (sample_item "c" 7 1) ]
          [].

(** Two carts with the same customer, items and strategies whose bundles
    differ in the discount only. *)
Definition cart_small_discount : Cart.t :=
  Cart.mk birthday_customer
          [Bundle 2 "b" 1 (1 # 10) [Product 1 (sample_item "a" 10 15)]]
          reference_set.

Definition cart_large_discount : Cart.t :=
  Cart.mk birthday_customer
          [Bundle 2 "b" 1 (1 # 2) [Product 1 (sample_item "a" 10 15)]]
          reference_set.

(** * The same code on IEEE-754 doubles

    What the code rounds and floors are doubles, and a product such as
    [0.29 * 100] is not the exact product.  The module below embeds the
    pricing tree, the strategies and the cart once more with [float], Rocq's
    binary64, as the TypeScript [number], for the properties that depend on
    it.  Arithmetic, comparisons and literals are those of the kernel's
    floats; [Math.round], [Math.floor] and [Math.min] are written out from
    their ECMAScript definitions. *)
Module Double.
Import PrimFloat.

(** [x > y] and [x >= y]: false as soon as an operand is NaN. *)
Definition gt (x y : float) : bool := ltb y x.
Definition ge (x y : float) : bool := leb y x.

(** A falsy number: [0], [-0] or NaN. *)
Definition falsy (x : float) : bool := eqb x 0%float || is_nan x.

(** The exact value [(-1)^s * m * 2^e] of a finite double. *)
Definition exact_of (s : bool) (m : positive) (e : Z) : Q :=
  (if s then - (1) else 1)
  * (if (0 <=? e)%Z then inject_Z (Z.pos m * 2 ^ e)
     else Z.pos m # (2 ^ Z.to_pos (- e))).

(** The double of an integer [n] below [2^53] in size; a zero keeps the
    sign [s] of the number it was rounded from. *)
Definition integer (s : bool) (n : Z) : float :=
  if (n =? 0)%Z then (if s then neg_zero else zero)
  else if (n <? 0)%Z then opp (of_uint63 (Uint63.of_Z (- n)))
  else of_uint63 (Uint63.of_Z n).

(** [Math.round]: the integer nearest to the exact value of [x], a tie
    going toward positive infinity.  NaN, the infinities, the zeros and a
    double with a non-negative exponent, which is an integer already, come
    back as they are. *)
Definition Math_round (x : float) : float :=
  match FloatOps.Prim2SF x with
  | SpecFloat.S754_finite s m e =>
      if (0 <=? e)%Z then x
      else integer s (Qfloor (exact_of s m e + (1 # 2)))
  | _ => x
  end.

(** [Math.floor]: the greatest integer not above the exact value of [x]. *)
Definition Math_floor (x : float) : float :=
  match FloatOps.Prim2SF x with
  | SpecFloat.S754_finite s m e =>
      if (0 <=? e)%Z then x
      else integer s (Qfloor (exact_of s m e))
  | _ => x
  end.

(** [Math.min] of two numbers: NaN if one of them is, and [-0] below [0]. *)
Definition Math_min (a b : float) : float :=
  if is_nan a then a
  else if is_nan b then b
  else if ltb a b then a
  else if ltb b a then b
  else match FloatOps.Prim2SF a with
       | SpecFloat.S754_zero true => a
       | _ => b
       end.

Module CartItem.
Record t : Type := mk
  { id : string;
    name : string;
    price : float;
    quantity : float;
    isSaleItem : option bool;
    isEligibleForBonus : option bool }.
End CartItem.

Module Customer.
Record t : Type := mk
  { id : string;
    email : string;
    isNewCustomer : bool;
    birthday : option Date.t;
    bonusPoints : float }.
End Customer.

Module PriceContext.
Record t : Type := mk
  { customer : Customer.t;
    cartItems : list CartItem.t;
    intermediateAmount : float }.
End PriceContext.

Unset Elimination Schemes.
Inductive CartComponent : Type :=
| Product (ref : nat) (item : CartItem.t)
| Bundle (ref : nat) (name : string) (quantity : float) (bundleDiscount : float)
         (components : list CartComponent).
Set Elimination Schemes.

(** [Product.getPrice] and [Bundle.getPrice]. *)
Fixpoint getPrice (c : CartComponent) : float :=
  match c with
  | Product _ item => CartItem.price item * CartItem.quantity item
  | Bundle _ _ quantity bundleDiscount components =>
      let totalPrice :=
        fold_left (fun totalPrice component => totalPrice + getPrice component)
                  components 0 in
      let totalPrice :=
        if gt bundleDiscount 0
        then totalPrice * (1 - bundleDiscount)
        else totalPrice in
      totalPrice * quantity
  end%float.

(** [Bundle.getAllItems], with a leaf giving its item. *)
Fixpoint getAllItems (c : CartComponent) : list CartItem.t :=
  match c with
  | Product _ item => [item]
  | Bundle _ _ _ _ components =>
      fold_left (fun items component => items ++ getAllItems component)
                components []
  end.

(** The flattened item list in the words of the specification. *)
Fixpoint flattenItems (c : CartComponent) : list CartItem.t :=
  match c with
  | Product _ item => [item]
  | Bundle _ _ _ _ children => flat_map flattenItems children
  end.

(** The ranges of the data model: a price is at least 0, a quantity at least
    1, a discount lies in [[0,1)]. *)
Fixpoint in_range (c : CartComponent) : bool :=
  match c with
  | Product _ item =>
      ge (CartItem.price item) 0 && ge (CartItem.quantity item) 1
  | Bundle _ _ q d children =>
      ge q 1 && ge d 0 && gt 1 d && forallb in_range children
  end%float.

(** The interface [PriceModificationStrategy]: [apply] with the value of
    [new Date()] as its first argument. *)
Module PriceModificationStrategy.
Record t : Type := mk
  { apply : Date.t -> float -> PriceContext.t -> float }.
End PriceModificationStrategy.

Module NewCustomerDiscountStrategy.
Definition discountPercentage : float := 0.05.
Definition maxDiscount : float := 100.

Definition apply (today : Date.t) (amount : float)
           (context : PriceContext.t) : float :=
  if negb (Customer.isNewCustomer (PriceContext.customer context)) then amount
  else
    let hasSaleItems :=
      existsb (fun item => truthy (CartItem.isSaleItem item))
              (PriceContext.cartItems context) in
    if hasSaleItems then amount
    else
      let discount := Math_min (amount * discountPercentage) maxDiscount in
      (amount - discount)%float.

Definition strategy : PriceModificationStrategy.t :=
  PriceModificationStrategy.mk apply.
End NewCustomerDiscountStrategy.

Module BirthdayDiscountStrategy.
Definition discountPercentage : float := 0.03.

Definition apply (today : Date.t) (amount : float)
           (context : PriceContext.t) : float :=
  match Customer.birthday (PriceContext.customer context) with
  | None => amount
  | Some birthday =>
      if negb (isBirthday today birthday) then amount
      else if Customer.isNewCustomer (PriceContext.customer context)
      then amount
      else
        let hasSaleItems :=
          existsb (fun item => truthy (CartItem.isSaleItem item))
                  (PriceContext.cartItems context) in
        if hasSaleItems then amount
        else
          let discount := (amount * discountPercentage)%float in
          (amount - discount)%float
  end.

Definition strategy : PriceModificationStrategy.t :=
  PriceModificationStrategy.mk apply.
End BirthdayDiscountStrategy.

Module VATStrategy.
Definition vatRate : float := 0.077.

Definition apply (today : Date.t) (amount : float)
           (context : PriceContext.t) : float :=
  (amount * (1 + vatRate))%float.

Definition strategy : PriceModificationStrategy.t :=
  PriceModificationStrategy.mk apply.
End VATStrategy.

(** The [Map<string, number>] of the volume discount, in insertion order. *)
Module JsMap.
Definition t : Type := list (string * float).

Fixpoint get (m : t) (key : string) : option float :=
  match m with
  | [] => None
  | (k, v) :: rest => if String.eqb k key then Some v else get rest key
  end.

Fixpoint set (m : t) (key : string) (value : float) : t :=
  match m with
  | [] => [(key, value)]
  | (k, v) :: rest =>
      if String.eqb k key then (k, value) :: rest
      else (k, v) :: set rest key value
  end.
End JsMap.

(** [x || 0] for the result of [Map.get]. *)
Definition or_zero (x : option float) : float :=
  match x with
  | Some q => if falsy q then 0%float else q
  | None => 0%float
  end.

Module VolumeDiscountStrategy.
Record Tier : Type := mkTier
  { minQuantity : float;
    discountPercentage : float }.

Definition discountTiers : list Tier :=
  [ mkTier 10 0.05;
    mkTier 20 0.10;
    mkTier 50 0.20 ]%float.

Definition getDiscountForQuantity (quantity : float) : float :=
  fold_left
    (fun applicableDiscount tier =>
       if ge quantity (minQuantity tier)
       then discountPercentage tier
       else applicableDiscount)
    discountTiers 0%float.

Definition groupQuantities (cartItems : list CartItem.t) : JsMap.t :=
  fold_left
    (fun itemQuantities item =>
       let currentQuantity :=
         or_zero (JsMap.get itemQuantities (CartItem.id item)) in
       JsMap.set itemQuantities (CartItem.id item)
                 (currentQuantity + CartItem.quantity item)%float)
    cartItems [].

Definition sumDiscounts (cartItems : list CartItem.t)
           (itemQuantities : JsMap.t) : float :=
  fold_left
    (fun totalDiscount entry =>
       let '(itemId, quantity) := entry in
       match find (fun i => String.eqb (CartItem.id i) itemId) cartItems with
       | None => totalDiscount
       | Some item =>
           let applicableDiscount := getDiscountForQuantity quantity in
           if gt applicableDiscount 0
           then
             let itemTotal := (CartItem.price item * quantity)%float in
             (totalDiscount + itemTotal * applicableDiscount)%float
           else totalDiscount
       end)
    itemQuantities 0%float.

Definition apply (today : Date.t) (amount : float)
           (context : PriceContext.t) : float :=
  let cartItems := PriceContext.cartItems context in
  let itemQuantities := groupQuantities cartItems in
  let totalDiscount := sumDiscounts cartItems itemQuantities in
  (amount - totalDiscount)%float.

Definition strategy : PriceModificationStrategy.t :=
  PriceModificationStrategy.mk apply.
End VolumeDiscountStrategy.

Module Cart.
Record t : Type := mk
  { customer : Customer.t;
    components : list CartComponent;
    priceStrategies : list PriceModificationStrategy.t }.

Definition getSubtotal (this : t) : float :=
  fold_left (fun total component => (total + getPrice component)%float)
            (components this) 0%float.

Definition getAllCartItems (this : t) : list CartItem.t :=
  fold_left
    (fun items component =>
       match component with
       | Bundle _ _ _ _ _ => items ++ getAllItems component
       | Product _ item => items ++ [item]
       end)
    (components this) [].

(** The loop of [calculateTotal]. *)
Fixpoint applyStrategies (today : Date.t) (customer : Customer.t)
         (allItems : list CartItem.t)
         (strategies : list PriceModificationStrategy.t)
         (currentAmount : float) : float :=
  match strategies with
  | [] => currentAmount
  | strategy :: rest =>
      let context :=
        PriceContext.mk customer allItems currentAmount in
      let currentAmount :=
        PriceModificationStrategy.apply strategy today currentAmount context in
      applyStrategies today customer allItems rest currentAmount
  end.

(** The amount [calculateTotal] holds when its loop is over. *)
Definition preRounding (today : Date.t) (this : t) : float :=
  applyStrategies today (customer this) (getAllCartItems this)
                  (priceStrategies this) (getSubtotal this).

Definition calculateTotal (today : Date.t) (this : t) : float :=
  let currentAmount := getSubtotal this in
  let allItems := getAllCartItems this in
  let currentAmount :=
    applyStrategies today (customer this) allItems (priceStrategies this)
                    currentAmount in
  (Math_round (currentAmount * 100) / 100)%float.

Definition calculateBonusPoints (today : Date.t) (this : t) : float :=
  let allItems := getAllCartItems this in
  let bonusPoints :=
    fold_left
      (fun bonusPoints item =>
         if truthy (CartItem.isEligibleForBonus item)
         then (bonusPoints
               + Math_floor (CartItem.price item * CartItem.quantity item))%float
         else bonusPoints)
      allItems 0%float in
  match Customer.birthday (customer this) with
  | Some birthday =>
      if isBirthday today birthday
      then (bonusPoints * 10)%float
      else bonusPoints
  | None => bonusPoints
  end.
End Cart.

(** Induction over the component tree. *)
Section CartComponent_induction.
Variable P : CartComponent -> Prop.
Hypothesis P_Product : forall r item, P (Product r item).
Hypothesis P_Bundle :
  forall r name q d children,
    Forall P children -> P (Bundle r name q d children).

Fixpoint CartComponent_ind (c : CartComponent) : P c :=
  match c with
  | Product r item => P_Product r item
  | Bundle r name q d children =>
      P_Bundle r name q d children
        ((fix all (l : list CartComponent) : Forall P l :=
            match l with
            | [] => Forall_nil P
            | x :: rest => Forall_cons x (CartComponent_ind x) (all rest)
            end) children)
  end.
End CartComponent_induction.

(** ** In the words of the specification *)


(** Rounding to the nearest integer with a tie going away from zero. *)
Definition round_half_away (x : float) : float :=
  if ltb x 0 then opp (Math_round (opp x)) else Math_round x.

(** Rounding to 2 decimal places, half away from zero. *)
Definition half_away_cents (x : float) : float :=
  (round_half_away (x * 100) / 100)%float.

(** ** Sample data *)

Definition item (id : string) (price quantity : float) : CartItem.t :=
  CartItem.mk id "item" price quantity None None.

Definition customer : Customer.t :=
  Customer.mk "cust" "mail" false None 0.

Definition new_customer : Customer.t :=
  Customer.mk "cust" "mail" true None 0.

(** A new customer with one item of price 100 that is not on sale, the
    new-customer discount registered before VAT. *)
Definition cart_discount_then_vat : Cart.t :=
  Cart.mk new_customer [Product 1 (item "a" 100 1)]
          [NewCustomerDiscountStrategy.strategy; VATStrategy.strategy].

(** Fifty pieces at 8 in a bundle discounted by 0.8125, one more item at
    4.875, and the volume discount: 75 + 4.875 - 80 = -0.125, every step
    exact in doubles. *)
Definition cart_below_zero : Cart.t :=
  Cart.mk customer
          [ Bundle 2 "bulk" 1 0.8125 [Product 1 (item "a" 8 50)];
            Product 3 (item "b" 4.875 1) ]
          [VolumeDiscountStrategy.strategy].

(** One bonus-eligible line of 100 pieces at 0.29, whose double product is
    just below 29, and one line that is not eligible. *)
Definition cart_with_bonus_items : Cart.t :=
  Cart.mk customer
          [ Product 1 (CartItem.mk "a" "item" 0.29 100 None (Some true));
            Bundle 3 "b" 2 0.5
                   [Product 2 (CartItem.mk "b" "item" 2.5 3 None (Some true))];
            Product 4 (item "c" 7 1) ]
          [].
End Double.

(** * Properties *)

(** ** Comparisons and sums *)

Lemma Qgt_bool_true (x y : Q) : Qgt_bool x y = true <-> y < x.
Proof.
  unfold Qgt_bool. rewrite negb_true_iff. split; intro H.
  - apply Qnot_le_lt. intro Hle. apply Qle_bool_iff in Hle. congruence.
  - destruct (Qle_bool x y) eqn:E; [|reflexivity].
    apply Qle_bool_iff in E. exfalso. apply (Qlt_not_le _ _ H E).
Qed.

Lemma Qgt_bool_false (x y : Q) : Qgt_bool x y = false <-> x <= y.
Proof.
  unfold Qgt_bool. rewrite negb_false_iff. apply Qle_bool_iff.
Qed.

Lemma Qge_bool_true (x y : Q) : Qge_bool x y = true <-> y <= x.
Proof. unfold Qge_bool. apply Qle_bool_iff. Qed.

Lemma Qge_bool_false (x y : Q) : Qge_bool x y = false <-> x < y.
Proof.
  unfold Qge_bool. split; intro H.
  - apply Qnot_le_lt. intro Hle. apply Qle_bool_iff in Hle. congruence.
  - destruct (Qle_bool y x) eqn:E; [|reflexivity].
    apply Qle_bool_iff in E. exfalso. apply (Qlt_not_le _ _ H E).
Qed.

(** A running total kept by a loop is the start value plus the sum. *)
Lemma fold_left_running_total {A : Type} (f : A -> Q) (l : list A) (start : Q) :
  fold_left (fun total x => total + f x) l start == start + sumQ (map f l).
Proof.
  revert start. induction l as [|x l IH]; intro start; simpl.
  - ring.
  - rewrite IH. ring.
Qed.

Lemma sumQ_map_pointwise {A : Type} (f g : A -> Q) (l : list A) :
  Forall (fun x => f x == g x) l -> sumQ (map f l) == sumQ (map g l).
Proof.
  induction 1 as [|x l Hx _ IH]; simpl.
  - reflexivity.
  - rewrite Hx, IH. reflexivity.
Qed.

Lemma sumQ_nonneg (l : list Q) : Forall (fun x => 0 <= x) l -> 0 <= sumQ l.
Proof.
  induction 1 as [|x l Hx _ IH]; simpl.
  - apply Qle_refl.
  - lra.
Qed.

(** ** The pricing tree *)

Lemma getPrice_Bundle_sum r name q d children :
  getPrice (Bundle r name q d children)
  == sumQ (map getPrice children)
     * (if Qgt_bool d 0 then 1 - d else 1) * q.
Proof.
  change (getPrice (Bundle r name q d children))
    with ((if Qgt_bool d 0
           then fold_left (fun total x => total + getPrice x) children 0 * (1 - d)
           else fold_left (fun total x => total + getPrice x) children 0) * q).
  destruct (Qgt_bool d 0);
    rewrite (fold_left_running_total getPrice children 0); ring.
Qed.

(** C1.  On a tree whose groups all carry a discount of at least zero, the
    price computed by [getPrice] is the aggregate value of the recursive
    reference definition: unit price times quantity on a leaf, the sum of
    the children's values times [(1 - d)] times [q] on a group with discount
    [d] and quantity [q]; so a group without children is worth 0. *)
Theorem getPrice_matches_reference (c : CartComponent) :
  discounts_nonneg c = true ->
  getPrice c == aggregateValue c
  /\ (forall r item,
         c = Product r item ->
         getPrice c == CartItem.price item * CartItem.quantity item)
  /\ (forall r name q d children,
         c = Bundle r name q d children ->
         getPrice c == sumQ (map getPrice children) * (1 - d) * q)
  /\ (forall r name q d, c = Bundle r name q d [] -> getPrice c == 0).
Proof.
  intro Hwf. split; [|split; [|split]].
  - revert Hwf. induction c as [r item | r name q d children IH]
      using CartComponent_ind; intro Hwf.
    + reflexivity.
    + rewrite getPrice_Bundle_sum.
      simpl in Hwf. apply andb_true_iff in Hwf. destruct Hwf as [Hd Hch].
      apply Qge_bool_true in Hd.
      assert (Hsum : sumQ (map getPrice children)
                     == sumQ (map aggregateValue children)).
      { apply sumQ_map_pointwise. rewrite forallb_forall in Hch.
        rewrite Forall_forall in IH |- *. intros x Hx.
        apply IH; [exact Hx | apply Hch; exact Hx]. }
      simpl. rewrite Hsum.
      destruct (Qgt_bool d 0) eqn:E; [reflexivity|].
      apply Qgt_bool_false in E.
      assert (Hd0 : d == 0) by (apply Qle_antisym; assumption).
      rewrite Hd0. ring.
  - intros r item ->. reflexivity.
  - intros r name q d children ->. rewrite getPrice_Bundle_sum.
    simpl in Hwf. apply andb_true_iff in Hwf. destruct Hwf as [Hd _].
    apply Qge_bool_true in Hd.
    destruct (Qgt_bool d 0) eqn:E; [reflexivity|].
    apply Qgt_bool_false in E.
    assert (Hd0 : d == 0) by (apply Qle_antisym; assumption).
    rewrite Hd0. ring.
  - intros r name q d ->. simpl. destruct (Qgt_bool d 0); ring.
Qed.

Lemma getPrice_matches_reference_witness :
  getPrice sample_outer == aggregateValue sample_outer
  /\ getPrice sample_outer
     == sumQ (map getPrice [sample_inner; Product 4 (sample_item "c" 30 1)])
        * (1 - (5 # 100)) * 1
  /\ getPrice (Bundle 8 "empty" 3 (1 # 4) []) == 0.
Proof.
  destruct (getPrice_matches_reference sample_outer eq_refl)
    as [Href [_ [Hgroup _]]].
  destruct (getPrice_matches_reference (Bundle 8 "empty" 3 (1 # 4) []) eq_refl)
    as [_ [_ [_ Hempty]]].
  split; [exact Href | split].
  - apply (Hgroup 5%nat "outer"%string). reflexivity.
  - apply (Hempty 8%nat "empty"%string 3 (1 # 4)). reflexivity.
Defined.

Lemma Bundle_add_all r name (q d : Q) (children more : list CartComponent) :
  fold_left Bundle_add more (Bundle r name q d children)
  = Bundle r name q d (children ++ more).
Proof.
  revert children. induction more as [|c more IH]; intro children; simpl.
  - rewrite app_nil_r. reflexivity.
  - rewrite IH, <- app_assoc. reflexivity.
Qed.

(** C10.  [new Bundle(name, q, d)] with a negative [d] is accepted and
    stores [d] as it is.  Whatever children are then added, the price of
    the bundle is the sum of their prices times [q], the price of the same
    bundle built with a discount of 0: the factor [(1 - d)] is only applied
    to a discount above 0. *)
Theorem negative_discount_ignored r name (q d : Q) children :
  d < 0 ->
  fold_left Bundle_add children (new_Bundle r name (Some q) (Some d))
  = Bundle r name q d children
  /\ getPrice (fold_left Bundle_add children
                         (new_Bundle r name (Some q) (Some d)))
     == sumQ (map getPrice children) * q
  /\ getPrice (fold_left Bundle_add children
                         (new_Bundle r name (Some q) (Some d)))
     == getPrice (fold_left Bundle_add children
                            (new_Bundle r name (Some q) (Some 0))).
Proof.
  intro Hneg. unfold new_Bundle. rewrite !Bundle_add_all. simpl app.
  assert (E : Qgt_bool d 0 = false) by (apply Qgt_bool_false; lra).
  split; [reflexivity|]. split.
  - rewrite getPrice_Bundle_sum, E. ring.
  - rewrite !getPrice_Bundle_sum, E.
    replace (Qgt_bool 0 0) with false by reflexivity. reflexivity.
Qed.

Lemma negative_discount_ignored_witness :
  fold_left Bundle_add [product_a; product_b]
            (new_Bundle 9 "b" (Some 2) (Some (- (1 # 2))))
  = Bundle 9 "b" 2 (- (1 # 2)) [product_a; product_b]
  /\ getPrice (fold_left Bundle_add [product_a; product_b]
                         (new_Bundle 9 "b" (Some 2) (Some (- (1 # 2)))))
     == sumQ (map getPrice [product_a; product_b]) * 2
  /\ getPrice (fold_left Bundle_add [product_a; product_b]
                         (new_Bundle 9 "b" (Some 2) (Some (- (1 # 2)))))
     == getPrice (fold_left Bundle_add [product_a; product_b]
                            (new_Bundle 9 "b" (Some 2) (Some 0))).
Proof.
  apply (negative_discount_ignored 9 "b" 2 (- (1 # 2)) [product_a; product_b]).
  reflexivity.
Defined.

Lemma in_range_getPrice_nonneg (c : CartComponent) :
  in_range c = true -> 0 <= getPrice c.
Proof.
  induction c as [r item | r name q d children IH]
    using CartComponent_ind; intro Hwf.
  - simpl in Hwf |- *. apply andb_true_iff in Hwf. destruct Hwf as [Hp Hq].
    apply Qge_bool_true in Hp. apply Qge_bool_true in Hq.
    apply Qmult_le_0_compat; lra.
  - rewrite getPrice_Bundle_sum.
    simpl in Hwf. rewrite !andb_true_iff in Hwf.
    destruct Hwf as [[[Hq Hd0] Hd1] Hch].
    apply Qge_bool_true in Hq. apply Qge_bool_true in Hd0.
    apply Qgt_bool_true in Hd1.
    assert (Hsum : 0 <= sumQ (map getPrice children)).
    { apply sumQ_nonneg. rewrite forallb_forall in Hch.
      rewrite Forall_forall in IH |- *. intros x Hx.
      apply in_map_iff in Hx. destruct Hx as [ch [<- Hin]].
      apply IH; [exact Hin | apply Hch; exact Hin]. }
    apply Qmult_le_0_compat; [|lra].
    apply Qmult_le_0_compat; [exact Hsum|].
    destruct (Qgt_bool d 0); lra.
Qed.

(** C9.  A node that respects the ranges of the data model throughout
    (prices at least 0, quantities at least 1, discounts in [[0,1)]) has a
    non-negative price, and the subtotal of a cart whose top-level nodes are
    all such nodes is non-negative. *)
Theorem in_range_prices_nonneg :
  (forall c, in_range c = true -> 0 <= getPrice c)
  /\ (forall cart,
         forallb in_range (Cart.components cart) = true ->
         0 <= Cart.getSubtotal cart).
Proof.
  split; [exact in_range_getPrice_nonneg|].
  intros cart Hwf. rewrite forallb_forall in Hwf.
  unfold Cart.getSubtotal. rewrite fold_left_running_total.
  assert (0 <= sumQ (map getPrice (Cart.components cart))); [|lra].
  apply sumQ_nonneg. apply Forall_forall. intros x Hx.
  apply in_map_iff in Hx. destruct Hx as [c [<- Hc]].
  apply in_range_getPrice_nonneg. apply Hwf. exact Hc.
Qed.

Lemma in_range_prices_nonneg_witness :
  0 <= getPrice sample_outer /\ 0 <= Cart.getSubtotal sample_cart.
Proof.
  split.
  - apply (proj1 in_range_prices_nonneg sample_outer). reflexivity.
  - apply (proj2 in_range_prices_nonneg sample_cart). reflexivity.
Defined.

(** ** Removing a component *)

Lemma indexOf_from_absent (i : Z) array component :
  Forall (fun y => strict_eq y component = false) array ->
  indexOf_from i array component = (-1)%Z.
Proof.
  intro H. revert i. induction H as [|y rest Hy _ IH]; intro i; simpl.
  - reflexivity.
  - rewrite Hy. apply IH.
Qed.

Lemma indexOf_from_first (i : Z) before x after component :
  Forall (fun y => strict_eq y component = false) before ->
  strict_eq x component = true ->
  indexOf_from i (before ++ x :: after) component
  = (i + Z.of_nat (List.length before))%Z.
Proof.
  intros H Hx. revert i. induction H as [|y rest Hy _ IH]; intro i; simpl.
  - rewrite Hx. lia.
  - rewrite Hy, IH. lia.
Qed.

Lemma splice_one before x after :
  splice (before ++ x :: after) (Z.of_nat (List.length before)) 1
  = before ++ after.
Proof.
  unfold splice.
  replace (Z.to_nat (Z.of_nat (List.length before) + 1))
    with (S (List.length before)) by lia.
  rewrite Nat2Z.id. f_equal.
  - induction before as [|y before IH]; simpl; [reflexivity | now rewrite IH].
  - induction before as [|y before IH]; simpl; [reflexivity | exact IH].
Qed.

Lemma remove_from_absent components component :
  Forall (fun y => strict_eq y component = false) components ->
  remove_from components component = components.
Proof.
  intro H. unfold remove_from, indexOf.
  rewrite indexOf_from_absent by exact H. reflexivity.
Qed.

Lemma remove_from_first before x after component :
  Forall (fun y => strict_eq y component = false) before ->
  strict_eq x component = true ->
  remove_from (before ++ x :: after) component = before ++ after.
Proof.
  intros H Hx. unfold remove_from, indexOf.
  rewrite indexOf_from_first by assumption. rewrite Z.add_0_l.
  destruct (Z.gtb_spec (Z.of_nat (List.length before)) (-1)) as [_|Hlt].
  - apply splice_one.
  - exfalso. lia.
Qed.

(** C8.  [Cart.removeComponent] and [Bundle.remove] return without an error
    in every case.  When no element of the component array is the given
    node, the cart (the bundle) is exactly what it was; when the node is
    there, the element at its first occurrence, and nothing else, leaves the
    array, and every other field is kept. *)
Theorem remove_contract (cart : Cart.t) r name q d children
        (component : CartComponent) :
  (Forall (fun y => strict_eq y component = false) (Cart.components cart) ->
   Cart.removeComponent cart component = cart)
  /\ (Forall (fun y => strict_eq y component = false) children ->
      Bundle_remove (Bundle r name q d children) component
      = Bundle r name q d children)
  /\ (forall before x after,
         Cart.components cart = before ++ x :: after ->
         Forall (fun y => strict_eq y component = false) before ->
         strict_eq x component = true ->
         Cart.removeComponent cart component
         = Cart.mk (Cart.customer cart) (before ++ after)
                   (Cart.priceStrategies cart))
  /\ (forall before x after,
         children = before ++ x :: after ->
         Forall (fun y => strict_eq y component = false) before ->
         strict_eq x component = true ->
         Bundle_remove (Bundle r name q d children) component
         = Bundle r name q d (before ++ after)).
Proof.
  repeat split.
  - intro H. destruct cart as [cu cs ps]. unfold Cart.removeComponent. simpl in *.
    rewrite remove_from_absent by exact H. reflexivity.
  - intro H. simpl. rewrite remove_from_absent by exact H. reflexivity.
  - intros before x after E H Hx. unfold Cart.removeComponent.
    rewrite E, remove_from_first by assumption. reflexivity.
  - intros before x after E H Hx. simpl.
    rewrite E, remove_from_first by assumption. reflexivity.
Qed.

Lemma remove_contract_witness :
  Cart.removeComponent cart_with_duplicate product_a_copy = cart_with_duplicate
  /\ Bundle_remove (Bundle 8 "b" 1 0 [product_a; product_b; product_a])
                   product_a_copy
     = Bundle 8 "b" 1 0 [product_a; product_b; product_a]
  /\ Cart.removeComponent cart_with_duplicate product_a
     = Cart.mk sample_customer [product_b; product_a] []
  /\ Bundle_remove (Bundle 8 "b" 1 0 [product_a; product_b; product_a])
                   product_a
     = Bundle 8 "b" 1 0 [product_b; product_a].
Proof.
  pose proof (remove_contract cart_with_duplicate 8 "b" 1 0
                [product_a; product_b; product_a] product_a_copy)
    as [Habs_cart [Habs_bundle _]].
  pose proof (remove_contract cart_with_duplicate 8 "b" 1 0
                [product_a; product_b; product_a] product_a)
    as [_ [_ [Hcart Hbundle]]].
  split; [|split; [|split]].
  - apply Habs_cart. repeat constructor.
  - apply Habs_bundle. repeat constructor.
  - apply (Hcart [] product_a [product_b; product_a]);
      [reflexivity | constructor | reflexivity].
  - apply (Hbundle [] product_a [product_b; product_a]);
      [reflexivity | constructor | reflexivity].
Defined.

(** ** The strategies *)

(** C5.  [NewCustomerDiscountStrategy.apply] returns the amount as it is
    for a customer who is not new, returns the amount as it is when some
    item of the context is a sale item, and otherwise returns the amount
    less [min (amount * 0.05) 100]. *)
Theorem NewCustomerDiscount_apply_cases
        (amount : Q) (today : Date.t) (context : PriceContext.t) :
  (Customer.isNewCustomer (PriceContext.customer context) = false ->
   result (NewCustomerDiscountStrategy.apply amount) today context = amount)
  /\ (existsb (fun item => truthy (CartItem.isSaleItem item))
              (PriceContext.cartItems context) = true ->
      result (NewCustomerDiscountStrategy.apply amount) today context = amount)
  /\ (Customer.isNewCustomer (PriceContext.customer context) = true ->
      existsb (fun item => truthy (CartItem.isSaleItem item))
              (PriceContext.cartItems context) = false ->
      result (NewCustomerDiscountStrategy.apply amount) today context
      = amount - Qmin (amount * (5 # 100)) 100).
Proof.
  unfold result, NewCustomerDiscountStrategy.apply, bind, read, ret.
  cbn beta iota.
  repeat split.
  - intros ->. reflexivity.
  - intro Hsale.
    destruct (Customer.isNewCustomer (PriceContext.customer context));
      [|reflexivity].
    cbn. rewrite Hsale. reflexivity.
  - intros Hnew Hsale. rewrite Hnew. cbn. rewrite Hsale. reflexivity.
Qed.

Lemma NewCustomerDiscount_apply_cases_witness :
  result (NewCustomerDiscountStrategy.apply 100) (Date.mk 0 1)
         (PriceContext.mk sample_customer [sample_item "a" 100 1] 100)
  = 100
  /\ result (NewCustomerDiscountStrategy.apply 100) (Date.mk 0 1)
            (PriceContext.mk new_customer
               [CartItem.mk "a" "item" 100 1 (Some true) None] 100)
     = 100
  /\ result (NewCustomerDiscountStrategy.apply 100) (Date.mk 0 1)
            (PriceContext.mk new_customer [sample_item "a" 100 1] 100)
     = 100 - Qmin (100 * (5 # 100)) 100.
Proof.
  split; [|split].
  - apply (proj1 (NewCustomerDiscount_apply_cases 100 (Date.mk 0 1)
             (PriceContext.mk sample_customer [sample_item "a" 100 1] 100))).
    reflexivity.
  - apply (proj1 (proj2 (NewCustomerDiscount_apply_cases 100 (Date.mk 0 1)
             (PriceContext.mk new_customer
                [CartItem.mk "a" "item" 100 1 (Some true) None] 100)))).
    reflexivity.
  - apply (proj2 (proj2 (NewCustomerDiscount_apply_cases 100 (Date.mk 0 1)
             (PriceContext.mk new_customer [sample_item "a" 100 1] 100))));
      reflexivity.
Defined.

(** The claim of C6 fails for the birthday discount: on the customer's
    birthday 100 becomes 97, on the day after it stays 100, with the same
    amount and the same context. *)
Lemma BirthdayDiscount_depends_on_clock :
  ~ Forall pure_in_arguments reference_set.
Proof.
  intro H. inversion H as [|s1 l1 _ H1]; subst.
  inversion H1 as [|s2 l2 Hb _]; subst.
  destruct (Hb 100 (PriceContext.mk birthday_customer
                      [sample_item "a" 100 1] 100)
               (Date.mk 4 1) (Date.mk 4 2)) as [Heq _].
  vm_compute in Heq. discriminate Heq.
Qed.

Lemma NewCustomerDiscount_keeps_context amount today context :
  context_after (NewCustomerDiscountStrategy.apply amount) today context
  = context.
Proof.
  unfold context_after, NewCustomerDiscountStrategy.apply, bind, read, ret.
  cbn beta iota.
  destruct (Customer.isNewCustomer _); cbn; [|reflexivity].
  destruct (existsb _ _); reflexivity.
Qed.

Lemma BirthdayDiscount_keeps_context amount today context :
  context_after (BirthdayDiscountStrategy.apply amount) today context
  = context.
Proof.
  unfold context_after, BirthdayDiscountStrategy.apply, bind, read, ret,
    new_Date.
  cbn beta iota.
  destruct (Customer.birthday _) as [b|]; [|reflexivity].
  destruct (isBirthday today b); cbn; [|reflexivity].
  destruct (Customer.isNewCustomer _); cbn; [reflexivity|].
  destruct (existsb _ _); reflexivity.
Qed.

Lemma VolumeDiscount_keeps_context amount today context :
  context_after (VolumeDiscountStrategy.apply amount) today context = context.
Proof. reflexivity. Qed.

Lemma VAT_keeps_context amount today context :
  context_after (VATStrategy.apply amount) today context = context.
Proof. reflexivity. Qed.

Lemma NewCustomerDiscount_ignores_clock amount context today1 today2 :
  result (NewCustomerDiscountStrategy.apply amount) today1 context
  = result (NewCustomerDiscountStrategy.apply amount) today2 context.
Proof.
  unfold result, NewCustomerDiscountStrategy.apply, bind, read, ret.
  cbn beta iota.
  destruct (Customer.isNewCustomer _); cbn; [|reflexivity].
  destruct (existsb _ _); reflexivity.
Qed.

Lemma VolumeDiscount_ignores_clock amount context today1 today2 :
  result (VolumeDiscountStrategy.apply amount) today1 context
  = result (VolumeDiscountStrategy.apply amount) today2 context.
Proof. reflexivity. Qed.

Lemma VAT_ignores_clock amount context today1 today2 :
  result (VATStrategy.apply amount) today1 context
  = result (VATStrategy.apply amount) today2 context.
Proof. reflexivity. Qed.

(** C6, as the code has it.  No strategy of the reference set changes the
    context it is handed.  The new-customer discount, the volume discount
    and VAT are pure functions of the amount and the context.  The birthday
    discount reads the clock: its result is fixed by the amount, the context
    and whether today's month and day are those of the customer's
    birthday. *)
Theorem reference_strategies_purity :
  Forall (fun s => forall amount context today,
              context_after (PriceModificationStrategy.apply s amount)
                            today context = context)
         reference_set
  /\ Forall pure_in_arguments
            [ NewCustomerDiscountStrategy.strategy;
              VolumeDiscountStrategy.strategy;
              VATStrategy.strategy ]
  /\ (forall amount context today1 today2,
         (forall birthday,
             Customer.birthday (PriceContext.customer context) = Some birthday ->
             isBirthday today1 birthday = isBirthday today2 birthday) ->
         result (BirthdayDiscountStrategy.apply amount) today1 context
         = result (BirthdayDiscountStrategy.apply amount) today2 context).
Proof.
  split; [|split].
  - unfold reference_set.
    repeat first [apply Forall_nil | apply Forall_cons];
      intros amount context today.
    + apply NewCustomerDiscount_keeps_context.
    + apply BirthdayDiscount_keeps_context.
    + apply VolumeDiscount_keeps_context.
    + apply VAT_keeps_context.
  - repeat first [apply Forall_nil | apply Forall_cons];
      intros amount context today1 today2; split.
    + cbn [PriceModificationStrategy.apply NewCustomerDiscountStrategy.strategy].
      rewrite (NewCustomerDiscount_ignores_clock amount context today1 today2).
      reflexivity.
    + apply NewCustomerDiscount_keeps_context.
    + reflexivity.
    + reflexivity.
    + reflexivity.
    + reflexivity.
  - intros amount context today1 today2 Hsame.
    unfold result, BirthdayDiscountStrategy.apply, bind, read, ret, new_Date.
    cbn beta iota. destruct (Customer.birthday _) as [b|]; [|reflexivity].
    rewrite (Hsame b eq_refl).
    destruct (isBirthday today2 b); cbn; [|reflexivity].
    destruct (Customer.isNewCustomer _); cbn; [reflexivity|].
    destruct (existsb _ _); reflexivity.
Qed.

Lemma reference_strategies_purity_witness :
  Forall (fun s => forall amount context today,
              context_after (PriceModificationStrategy.apply s amount)
                            today context = context)
         reference_set
  /\ Forall pure_in_arguments
            [ NewCustomerDiscountStrategy.strategy;
              VolumeDiscountStrategy.strategy;
              VATStrategy.strategy ]
  /\ result (BirthdayDiscountStrategy.apply 100) (Date.mk 5 2)
            (PriceContext.mk birthday_customer [sample_item "a" 100 1] 100)
     = result (BirthdayDiscountStrategy.apply 100) (Date.mk 6 3)
              (PriceContext.mk birthday_customer [sample_item "a" 100 1] 100).
Proof.
  destruct reference_strategies_purity as [Hkeep [Hpure Hbirthday]].
  split; [exact Hkeep | split; [exact Hpure|]].
  apply Hbirthday. intros birthday Hb. injection Hb as <-. reflexivity.
Defined.

(** ** The cart *)

Lemma fold_left_push {A B : Type} (f : A -> list B) (l : list A)
      (start : list B) :
  fold_left (fun items x => items ++ f x) l start = start ++ flat_map f l.
Proof.
  revert start. induction l as [|x l IH]; intro start; simpl.
  - symmetry. apply app_nil_r.
  - rewrite IH. symmetry. apply app_assoc.
Qed.

Lemma getAllItems_flattenItems (c : CartComponent) :
  getAllItems c = flattenItems c.
Proof.
  induction c as [r item | r name q d children IH] using CartComponent_ind.
  - reflexivity.
  - change (getAllItems (Bundle r name q d children))
      with (fold_left (fun items x => items ++ getAllItems x) children []).
    rewrite fold_left_push. simpl.
    induction IH as [|x rest Hx _ IHrest]; simpl.
    + reflexivity.
    + rewrite Hx, IHrest. reflexivity.
Qed.

Lemma getAllCartItems_loop (components : list CartComponent)
      (start : list CartItem.t) :
  fold_left
    (fun items component =>
       match component with
       | Bundle _ _ _ _ _ => items ++ getAllItems component
       | Product _ item => items ++ [item]
       end)
    components start
  = start ++ flat_map flattenItems components.
Proof.
  revert start. induction components as [|c rest IH]; intro start; simpl.
  - symmetry. apply app_nil_r.
  - destruct c as [r item | r name q d children]; rewrite IH.
    + rewrite <- app_assoc. reflexivity.
    + rewrite getAllItems_flattenItems, <- app_assoc. reflexivity.
Qed.

Lemma getAllCartItems_flattenItems (cart : Cart.t) :
  Cart.getAllCartItems cart = flat_map flattenItems (Cart.components cart).
Proof.
  unfold Cart.getAllCartItems. apply getAllCartItems_loop.
Qed.

Lemma applyStrategies_pipeline today customer items rules start :
  Cart.applyStrategies today customer items rules start
  = pipeline today customer items rules start.
Proof.
  unfold pipeline. revert start.
  induction rules as [|rule rules IH]; intro start; simpl.
  - reflexivity.
  - apply IH.
Qed.

(** C2.  [calculateTotal] is the left-to-right fold of the registered
    strategies, in registration order, that starts from the unrounded
    subtotal (the sum of the prices of the top-level components); every
    strategy is given the running amount and the flattened item list taken
    once for the whole fold; the result of the fold is rounded to cents
    once.  With no strategy the total is the rounded subtotal. *)
Theorem calculateTotal_is_fold (today : Date.t) (cart : Cart.t) :
  Cart.calculateTotal today cart
  = round_to_cents
      (pipeline today (Cart.customer cart)
                (flat_map flattenItems (Cart.components cart))
                (Cart.priceStrategies cart) (Cart.getSubtotal cart))
  /\ Cart.getSubtotal cart == sumQ (map getPrice (Cart.components cart))
  /\ (Cart.priceStrategies cart = [] ->
      Cart.calculateTotal today cart = round_to_cents (Cart.getSubtotal cart)).
Proof.
  split; [|split].
  - unfold Cart.calculateTotal.
    rewrite applyStrategies_pipeline, getAllCartItems_flattenItems.
    reflexivity.
  - unfold Cart.getSubtotal. rewrite fold_left_running_total. ring.
  - intro Hnone. unfold Cart.calculateTotal. rewrite Hnone. reflexivity.
Qed.

Lemma calculateTotal_is_fold_witness :
  Cart.calculateTotal (Date.mk 0 1) sample_cart
  = round_to_cents
      (pipeline (Date.mk 0 1) (Cart.customer sample_cart)
                (flat_map flattenItems (Cart.components sample_cart))
                (Cart.priceStrategies sample_cart)
                (Cart.getSubtotal sample_cart))
  /\ Cart.getSubtotal sample_cart
     == sumQ (map getPrice (Cart.components sample_cart))
  /\ Cart.calculateTotal (Date.mk 0 1) sample_cart
     = round_to_cents (Cart.getSubtotal sample_cart).
Proof.
  destruct (calculateTotal_is_fold (Date.mk 0 1) sample_cart)
    as [Hfold [Hsub Hnone]].
  split; [exact Hfold | split; [exact Hsub|]].
  apply Hnone. reflexivity.
Defined.

(** ** Rounding *)

Lemma round_half_away_nonneg (y : Q) :
  0 <= y -> round_half_away_from_zero y = Math_round y.
Proof.
  intro Hy. unfold round_half_away_from_zero, Math_round.
  destruct y as [n d]. unfold Qle in Hy. simpl in Hy.
  assert (Hn : (0 <= n)%Z) by lia.
  unfold Qabs. rewrite (Z.abs_eq n) by exact Hn. simpl Qnum.
  destruct (Z.eq_dec n 0) as [-> | Hne].
  - assert (E : (0 # d) + (1 # 2) == 1 # 2) by (unfold Qeq; simpl; lia).
    simpl Z.abs. rewrite E. reflexivity.
  - rewrite Z.sgn_pos by lia. apply Z.mul_1_l.
Qed.

(** ** Bonus points *)

Lemma fold_left_bonus (eligible : CartItem.t -> bool) (points : CartItem.t -> Z)
      (items : list CartItem.t) (start : Q) :
  fold_left
    (fun bonusPoints item =>
       if eligible item then bonusPoints + inject_Z (points item)
       else bonusPoints)
    items start
  == start + inject_Z (sumZ (map points (filter eligible items))).
Proof.
  revert start. induction items as [|item items IH]; intro start; simpl.
  - change (inject_Z 0) with 0. ring.
  - rewrite IH. destruct (eligible item); simpl.
    + rewrite inject_Z_plus. ring.
    + reflexivity.
Qed.

(** ** The map of the volume discount *)

Lemma or_zero_Some (v : Q) : or_zero (Some v) == v.
Proof.
  simpl. destruct (Qeq_bool v 0) eqn:E; [|reflexivity].
  apply Qeq_bool_iff in E. symmetry. exact E.
Qed.

Lemma JsMap_get_set (m : JsMap.t) (k k' : string) (v : Q) :
  JsMap.get (JsMap.set m k v) k'
  = if String.eqb k k' then Some v else JsMap.get m k'.
Proof.
  induction m as [|[k0 v0] m IH]; simpl.
  - reflexivity.
  - destruct (String.eqb_spec k0 k) as [-> | Hne]; simpl.
    + destruct (String.eqb k k'); reflexivity.
    + rewrite IH. destruct (String.eqb_spec k0 k') as [-> | Hne'].
      * destruct (String.eqb_spec k k') as [-> | _]; [congruence | reflexivity].
      * reflexivity.
Qed.

Lemma JsMap_keys_set (m : JsMap.t) (k : string) (v : Q) :
  JsMap.keys (JsMap.set m k v)
  = if mem k (JsMap.keys m) then JsMap.keys m else JsMap.keys m ++ [k].
Proof.
  unfold JsMap.keys, mem. induction m as [|[k0 v0] m IH]; simpl.
  - reflexivity.
  - rewrite (String.eqb_sym k k0).
    destruct (String.eqb k0 k); simpl.
    + reflexivity.
    + rewrite IH. destruct (existsb _ _); reflexivity.
Qed.

Lemma JsMap_get_In (m : JsMap.t) (k : string) (v : Q) :
  NoDup (JsMap.keys m) -> In (k, v) m -> JsMap.get m k = Some v.
Proof.
  unfold JsMap.keys. induction m as [|[k0 v0] m IH]; simpl; intros Hnd Hin.
  - contradiction.
  - inversion Hnd as [|? ? Hnotin Hnd']; subst.
    destruct Hin as [E | Hin].
    + injection E as -> ->. rewrite String.eqb_refl. reflexivity.
    + destruct (String.eqb_spec k0 k) as [-> | _].
      * exfalso. apply Hnotin. apply in_map_iff. exists (k, v). split; auto.
      * apply IH; assumption.
Qed.

Lemma filter_filter {A : Type} (f g : A -> bool) (l : list A) :
  filter f (filter g l) = filter (fun x => f x && g x) l.
Proof.
  induction l as [|x l IH]; simpl.
  - reflexivity.
  - destruct (g x); simpl.
    + rewrite andb_true_r. destruct (f x); rewrite IH; reflexivity.
    + rewrite andb_false_r. exact IH.
Qed.

Lemma filter_all {A : Type} (f : A -> bool) (l : list A) :
  (forall x, f x = true) -> filter f l = l.
Proof.
  intro H. induction l as [|x l IH]; simpl.
  - reflexivity.
  - rewrite H, IH. reflexivity.
Qed.

Lemma mem_snoc (x k : string) (ks : list string) :
  mem x (ks ++ [k]) = mem x ks || String.eqb k x.
Proof.
  unfold mem. rewrite existsb_app. simpl. rewrite orb_false_r.
  rewrite (String.eqb_sym x k). reflexivity.
Qed.

Lemma distinct_In (k : string) (ids : list string) :
  In k (distinct ids) -> In k ids.
Proof.
  revert k. induction ids as [|k0 ids IH]; simpl; intros k H.
  - exact H.
  - destruct H as [-> | H]; [left; reflexivity|].
    right. apply IH. apply filter_In in H. tauto.
Qed.

Lemma distinct_NoDup (ids : list string) : NoDup (distinct ids).
Proof.
  induction ids as [|k ids IH]; simpl.
  - constructor.
  - constructor.
    + intro H. apply filter_In in H. destruct H as [_ H].
      rewrite String.eqb_refl in H. discriminate H.
    + apply NoDup_filter. exact IH.
Qed.

Section GroupQuantities.
(** One step of the first [forEach] of [VolumeDiscountStrategy.apply]. *)
Let step (itemQuantities : JsMap.t) (item : CartItem.t) : JsMap.t :=
  JsMap.set itemQuantities (CartItem.id item)
            (or_zero (JsMap.get itemQuantities (CartItem.id item))
             + CartItem.quantity item).

Lemma groupQuantities_keys_from (items : list CartItem.t) (m : JsMap.t) :
  JsMap.keys (fold_left step items m)
  = JsMap.keys m
    ++ filter (fun k => negb (mem k (JsMap.keys m)))
              (distinct (map CartItem.id items)).
Proof.
  revert m. induction items as [|item items IH]; intro m; simpl.
  - symmetry. apply app_nil_r.
  - rewrite IH. unfold step. rewrite JsMap_keys_set.
    destruct (mem (CartItem.id item) (JsMap.keys m)) eqn:E; simpl.
    + f_equal. rewrite filter_filter. apply filter_ext. intro x.
      destruct (String.eqb_spec (CartItem.id item) x) as [<- | _]; simpl.
      * rewrite E. reflexivity.
      * symmetry. apply andb_true_r.
    + rewrite <- app_assoc. simpl. f_equal. f_equal.
      rewrite filter_filter. apply filter_ext. intro x.
      rewrite mem_snoc, negb_orb. reflexivity.
Qed.

Lemma groupQuantities_values_from (items : list CartItem.t) (m : JsMap.t)
      (k : string) :
  or_zero (JsMap.get (fold_left step items m) k)
  == or_zero (JsMap.get m k) + summedQuantity items k.
Proof.
  revert m. induction items as [|item items IH]; intro m.
  - unfold summedQuantity. simpl. ring.
  - simpl fold_left. rewrite IH. unfold step. rewrite JsMap_get_set.
    unfold summedQuantity. simpl filter.
    destruct (String.eqb_spec (CartItem.id item) k) as [-> | _].
    + rewrite or_zero_Some. simpl. ring.
    + reflexivity.
Qed.
End GroupQuantities.

Lemma groupQuantities_keys (items : list CartItem.t) :
  JsMap.keys (VolumeDiscountStrategy.groupQuantities items)
  = distinct (map CartItem.id items).
Proof.
  unfold VolumeDiscountStrategy.groupQuantities.
  rewrite groupQuantities_keys_from. simpl.
  apply filter_all. reflexivity.
Qed.

Lemma groupQuantities_values (items : list CartItem.t) (k : string) (v : Q) :
  In (k, v) (VolumeDiscountStrategy.groupQuantities items) ->
  v == summedQuantity items k.
Proof.
  intro Hin.
  assert (Hget : JsMap.get (VolumeDiscountStrategy.groupQuantities items) k
                 = Some v).
  { apply JsMap_get_In; [|exact Hin].
    rewrite groupQuantities_keys. apply distinct_NoDup. }
  pose proof (groupQuantities_values_from items [] k) as H.
  fold (VolumeDiscountStrategy.groupQuantities items) in H.
  rewrite Hget, or_zero_Some in H. rewrite H. simpl. ring.
Qed.

(** ** The volume discount *)

Lemma getDiscountForQuantity_tierFraction (quantity : Q) :
  VolumeDiscountStrategy.getDiscountForQuantity quantity
  = tierFraction quantity.
Proof. reflexivity. Qed.

Lemma tierFraction_comp (x y : Q) : x == y -> tierFraction x = tierFraction y.
Proof.
  intro E. unfold tierFraction, Qge_bool. rewrite !E. reflexivity.
Qed.

Lemma tierFraction_zero_or_positive (x : Q) :
  Qgt_bool (tierFraction x) 0 = false -> tierFraction x = 0.
Proof.
  unfold tierFraction.
  destruct (Qge_bool x 50); [discriminate|].
  destruct (Qge_bool x 20); [discriminate|].
  destruct (Qge_bool x 10); [discriminate|].
  reflexivity.
Qed.

Lemma tierFraction_below_ten (x : Q) : x < 10 -> tierFraction x = 0.
Proof.
  intro H. unfold tierFraction.
  assert (E50 : Qge_bool x 50 = false) by (apply Qge_bool_false; lra).
  assert (E20 : Qge_bool x 20 = false) by (apply Qge_bool_false; lra).
  assert (E10 : Qge_bool x 10 = false) by (apply Qge_bool_false; lra).
  rewrite E50, E20, E10. reflexivity.
Qed.

Lemma sumDiscounts_sum (cartItems : list CartItem.t) (entries : JsMap.t) :
  VolumeDiscountStrategy.sumDiscounts cartItems entries
  == sumQ (map (entryDiscount cartItems) entries).
Proof.
  unfold VolumeDiscountStrategy.sumDiscounts.
  assert (H : forall start,
             fold_left
               (fun totalDiscount entry =>
                  let '(itemId, quantity) := entry in
                  match find (fun i => String.eqb (CartItem.id i) itemId)
                             cartItems with
                  | None => totalDiscount
                  | Some item =>
                      let applicableDiscount :=
                        VolumeDiscountStrategy.getDiscountForQuantity quantity in
                      if Qgt_bool applicableDiscount 0
                      then
                        let itemTotal := CartItem.price item * quantity in
                        totalDiscount + itemTotal * applicableDiscount
                      else totalDiscount
                  end)
               entries start
             == start + sumQ (map (entryDiscount cartItems) entries)).
  { induction entries as [|[k v] entries IH]; intro start; simpl.
    - ring.
    - rewrite IH.
      destruct (find _ cartItems) as [item|]; [|ring].
      destruct (Qgt_bool _ 0); ring. }
  rewrite H. ring.
Qed.

Lemma entryDiscount_idDiscount (items : list CartItem.t) (k : string) (v : Q) :
  v == summedQuantity items k ->
  entryDiscount items (k, v) == idDiscount items k.
Proof.
  intro Hv. unfold entryDiscount, idDiscount, unitPriceOf.
  rewrite getDiscountForQuantity_tierFraction.
  rewrite <- (tierFraction_comp _ _ Hv).
  destruct (find _ items) as [item|]; [|ring].
  cbn zeta. destruct (Qgt_bool (tierFraction v) 0) eqn:E.
  - remember (tierFraction v) as t. rewrite Hv. reflexivity.
  - rewrite (tierFraction_zero_or_positive _ E). ring.
Qed.

Lemma VolumeDiscount_result (amount : Q) (today : Date.t)
      (context : PriceContext.t) :
  result (VolumeDiscountStrategy.apply amount) today context
  == volumeDiscounted amount (PriceContext.cartItems context).
Proof.
  unfold result, VolumeDiscountStrategy.apply, bind, read, ret.
  cbn beta iota. unfold fst, volumeDiscounted.
  set (items := PriceContext.cartItems context).
  rewrite sumDiscounts_sum, <- groupQuantities_keys.
  unfold JsMap.keys. rewrite map_map.
  rewrite (sumQ_map_pointwise (entryDiscount items)
                              (fun e => idDiscount items (fst e))).
  - reflexivity.
  - apply Forall_forall. intros [k v] Hin.
    apply entryDiscount_idDiscount.
    apply groupQuantities_values. exact Hin.
Qed.

(** C3.  [VolumeDiscountStrategy.apply] returns the amount less the sum,
    over the distinct item ids of the flattened list, of the discount of
    each id: the unit price of the first item carrying the id, times the
    quantities of all items carrying it summed, times the fraction of the
    highest tier of 10 -> 5%, 20 -> 10%, 50 -> 20% that the summed quantity
    reaches.  When no id reaches 10 the amount comes back as it is.  One id
    with price 10 and quantity 15 turns 150 into 142.5. *)
Theorem VolumeDiscount_apply_spec (amount : Q) (today : Date.t)
        (context : PriceContext.t) :
  result (VolumeDiscountStrategy.apply amount) today context
  == volumeDiscounted amount (PriceContext.cartItems context)
  /\ ((forall k, In k (map CartItem.id (PriceContext.cartItems context)) ->
                 summedQuantity (PriceContext.cartItems context) k < 10) ->
      result (VolumeDiscountStrategy.apply amount) today context == amount)
  /\ result (VolumeDiscountStrategy.apply 150) today
            (PriceContext.mk (PriceContext.customer context)
                             [sample_item "a" 10 15] 150)
     == 1425 # 10.
Proof.
  split; [|split].
  - apply VolumeDiscount_result.
  - intro Hsmall. rewrite VolumeDiscount_result. unfold volumeDiscounted.
    set (items := PriceContext.cartItems context) in *.
    assert (Hzero : sumQ (map (idDiscount items)
                              (distinct (map CartItem.id items))) == 0).
    { rewrite (sumQ_map_pointwise (idDiscount items) (fun _ => 0)).
      - clear. induction (distinct _) as [|k ks IH]; simpl;
          [reflexivity | rewrite IH; ring].
      - apply Forall_forall. intros k Hk. apply distinct_In in Hk.
        unfold idDiscount.
        rewrite (tierFraction_below_ten _ (Hsmall k Hk)). ring. }
    rewrite Hzero. ring.
  - reflexivity.
Qed.

Lemma VolumeDiscount_apply_spec_witness :
  result (VolumeDiscountStrategy.apply 30) (Date.mk 0 1)
         (PriceContext.mk sample_customer
            [sample_item "a" 10 2; sample_item "b" 5 1; sample_item "a" 10 1]
            30)
  == volumeDiscounted 30
       [sample_item "a" 10 2; sample_item "b" 5 1; sample_item "a" 10 1]
  /\ result (VolumeDiscountStrategy.apply 30) (Date.mk 0 1)
            (PriceContext.mk sample_customer
               [sample_item "a" 10 2; sample_item "b" 5 1; sample_item "a" 10 1]
               30)
     == 30
  /\ result (VolumeDiscountStrategy.apply 150) (Date.mk 0 1)
            (PriceContext.mk sample_customer [sample_item "a" 10 15] 150)
     == 1425 # 10.
Proof.
  destruct (VolumeDiscount_apply_spec 30 (Date.mk 0 1)
              (PriceContext.mk sample_customer
                 [sample_item "a" 10 2; sample_item "b" 5 1;
                  sample_item "a" 10 1] 30))
    as [Hspec [Hsmall Hexample]].
  split; [exact Hspec | split; [|exact Hexample]].
  apply Hsmall. intros k Hk. simpl in Hk.
  destruct Hk as [<- | [<- | [<- | []]]]; reflexivity.
Defined.

(** ** The scenarios of the project's test suite *)

Example subtotal_single_product :
  Cart.getSubtotal
    (Cart.mk sample_customer [Product 1 (sample_item "1" 100 2)] [])
  == 200.
Proof. reflexivity. Qed.

Example subtotal_bundle :
  Cart.getSubtotal
    (Cart.mk sample_customer
       [Bundle 3 "Test Bundle" 1 (1 # 10)
               [Product 1 (sample_item "1" 50 1);
                Product 2 (sample_item "2" 30 1)]] [])
  == 72.
Proof. reflexivity. Qed.

Example subtotal_nested_bundles :
  Cart.getSubtotal (Cart.mk sample_customer [sample_outer] []) == 5415 # 100.
Proof. reflexivity. Qed.

Example total_new_customer (today : Date.t) :
  Cart.calculateTotal today
    (Cart.mk new_customer [Product 1 (sample_item "1" 100 1)]
             [NewCustomerDiscountStrategy.strategy])
  == 95.
Proof. reflexivity. Qed.

Example total_new_customer_sale_item (today : Date.t) :
  Cart.calculateTotal today
    (Cart.mk new_customer
             [Product 1 (CartItem.mk "1" "item" 100 1 (Some true) None)]
             [NewCustomerDiscountStrategy.strategy])
  == 100.
Proof. reflexivity. Qed.

Example total_birthday :
  Cart.calculateTotal (Date.mk 4 1)
    (Cart.mk birthday_customer [Product 1 (sample_item "1" 100 1)]
             [BirthdayDiscountStrategy.strategy])
  == 97.
Proof. reflexivity. Qed.

Example total_vat (today : Date.t) :
  Cart.calculateTotal today
    (Cart.mk sample_customer [Product 1 (sample_item "1" 100 1)]
             [VATStrategy.strategy])
  == 1077 # 10.
Proof. reflexivity. Qed.

Example total_volume (today : Date.t) :
  Cart.calculateTotal today
    (Cart.mk sample_customer [Product 1 (sample_item "1" 10 15)]
             [VolumeDiscountStrategy.strategy])
  == 1425 # 10.
Proof. reflexivity. Qed.

(** Two leaves with one id: their quantities add up to the tier of 10. *)
Example total_volume_two_leaves (today : Date.t) :
  Cart.calculateTotal today
    (Cart.mk sample_customer
             [Product 1 (sample_item "1" 10 6); Product 2 (sample_item "1" 10 6)]
             [VolumeDiscountStrategy.strategy])
  == 114.
Proof. reflexivity. Qed.

(** * Further properties of the code *)

Lemma sumQ_app (l1 l2 : list Q) : sumQ (l1 ++ l2) == sumQ l1 + sumQ l2.
Proof.
  induction l1 as [|x l1 IH]; simpl.
  - ring.
  - rewrite IH. ring.
Qed.

(** ** Adding and removing components *)

Lemma strict_eq_refl (c : CartComponent) : strict_eq c c = true.
Proof. unfold strict_eq. apply Nat.eqb_refl. Qed.

(** An array that holds the node splits at the node's first occurrence. *)
Lemma first_occurrence_split (array : list CartComponent)
      (component : CartComponent) :
  existsb (fun y => strict_eq y component) array = true ->
  exists before x after,
    array = before ++ x :: after
    /\ Forall (fun y => strict_eq y component = false) before
    /\ strict_eq x component = true.
Proof.
  induction array as [|y rest IH]; simpl; intro H.
  - discriminate H.
  - destruct (strict_eq y component) eqn:E.
    + exists [], y, rest. repeat split; [constructor | exact E].
    + destruct (IH H) as [before [x [after [-> [Hb Hx]]]]].
      exists (y :: before), x, after. repeat split; [constructor|]; assumption.
Qed.

Lemma existsb_false_Forall (array : list CartComponent)
      (component : CartComponent) :
  existsb (fun y => strict_eq y component) array = false ->
  Forall (fun y => strict_eq y component = false) array.
Proof.
  induction array as [|y rest IH]; simpl; intro H.
  - constructor.
  - apply orb_false_iff in H. destruct H as [Hy Hrest].
    constructor; [exact Hy | apply IH; exact Hrest].
Qed.

(** X1.  Adding a node that the cart (the bundle) does not hold yet and
    removing it again gives back the cart (the bundle) as it was.  When the
    cart already holds the node, the removal takes out the earlier
    occurrence and the newly added one stays at the end. *)
Theorem add_then_remove (cart : Cart.t) r name q d children
        (component : CartComponent) :
  (Forall (fun y => strict_eq y component = false) (Cart.components cart) ->
   Cart.removeComponent (Cart.addComponent cart component) component = cart)
  /\ (Forall (fun y => strict_eq y component = false) children ->
      Bundle_remove (Bundle_add (Bundle r name q d children) component)
                    component
      = Bundle r name q d children)
  /\ (forall before x after,
         Cart.components cart = before ++ x :: after ->
         Forall (fun y => strict_eq y component = false) before ->
         strict_eq x component = true ->
         Cart.components
           (Cart.removeComponent (Cart.addComponent cart component) component)
         = before ++ after ++ [component]).
Proof.
  split; [|split].
  - intro H. destruct cart as [cu cs ps].
    unfold Cart.removeComponent, Cart.addComponent. simpl in *.
    rewrite remove_from_first by (auto using strict_eq_refl).
    rewrite app_nil_r. reflexivity.
  - intro H. simpl.
    rewrite remove_from_first by (auto using strict_eq_refl).
    rewrite app_nil_r. reflexivity.
  - intros before x after E Hb Hx. simpl. rewrite E, <- app_assoc. simpl.
    apply (remove_from_first before x (after ++ [component])); assumption.
Qed.

Lemma add_then_remove_witness :
  Cart.removeComponent (Cart.addComponent sample_cart product_a_copy)
                       product_a_copy
  = sample_cart
  /\ Bundle_remove (Bundle_add (Bundle 8 "b" 1 0 [product_a; product_b])
                               product_a_copy) product_a_copy
     = Bundle 8 "b" 1 0 [product_a; product_b]
  /\ Cart.components
       (Cart.removeComponent (Cart.addComponent cart_with_duplicate product_a)
                             product_a)
     = [] ++ [product_b; product_a] ++ [product_a].
Proof.
  destruct (add_then_remove sample_cart 8 "b" 1 0 [product_a; product_b]
              product_a_copy) as [Hcart [Hbundle _]].
  destruct (add_then_remove cart_with_duplicate 8 "b" 1 0 [] product_a)
    as [_ [_ Hdup]].
  split; [|split].
  - apply Hcart. repeat constructor.
  - apply Hbundle. repeat constructor.
  - apply (Hdup [] product_a [product_b; product_a]);
      [reflexivity | constructor | reflexivity].
Defined.

(** X2.  Adding a component raises the subtotal by the price of the
    component and the item count by its quantity, and appends its items,
    depth first, to the flattened item list. *)
Theorem addComponent_effect (cart : Cart.t) (component : CartComponent) :
  Cart.getSubtotal (Cart.addComponent cart component)
  == Cart.getSubtotal cart + getPrice component
  /\ Cart.getItemCount (Cart.addComponent cart component)
     == Cart.getItemCount cart + getQuantity component
  /\ Cart.getAllCartItems (Cart.addComponent cart component)
     = Cart.getAllCartItems cart ++ flattenItems component.
Proof.
  split; [|split].
  - unfold Cart.getSubtotal. simpl. rewrite !fold_left_running_total.
    rewrite map_app. simpl.
    rewrite sumQ_app. simpl. ring.
  - unfold Cart.getItemCount. simpl. rewrite !fold_left_running_total.
    rewrite map_app. simpl.
    rewrite sumQ_app. simpl. ring.
  - rewrite !getAllCartItems_flattenItems. simpl.
    rewrite flat_map_app. simpl. rewrite app_nil_r. reflexivity.
Qed.

(** X3.  Removing a node that the cart holds lowers the subtotal by the
    price of the component at the node's first occurrence. *)
Theorem removeComponent_subtotal (cart : Cart.t) before x after
        (component : CartComponent) :
  Cart.components cart = before ++ x :: after ->
  Forall (fun y => strict_eq y component = false) before ->
  strict_eq x component = true ->
  Cart.getSubtotal (Cart.removeComponent cart component)
  == Cart.getSubtotal cart - getPrice x.
Proof.
  intros E Hb Hx. unfold Cart.getSubtotal. simpl.
  rewrite E, remove_from_first by assumption.
  rewrite !fold_left_running_total, !map_app. simpl.
  rewrite !sumQ_app. simpl. ring.
Qed.

Lemma removeComponent_subtotal_witness :
  Cart.getSubtotal (Cart.removeComponent cart_with_duplicate product_b)
  == Cart.getSubtotal cart_with_duplicate - getPrice product_b.
Proof.
  apply (removeComponent_subtotal cart_with_duplicate [product_a] product_b
           [product_a] product_b);
    [reflexivity | repeat constructor | reflexivity].
Defined.

(** X4.  A removal takes at most one element out of the array: one when
    the array holds the node, none otherwise. *)
Theorem remove_from_length (components : list CartComponent)
        (component : CartComponent) :
  List.length (remove_from components component)
  = (List.length components
     - (if existsb (fun y => strict_eq y component) components
        then 1 else 0))%nat.
Proof.
  destruct (existsb _ components) eqn:E.
  - destruct (first_occurrence_split _ _ E) as [before [x [after [-> [Hb Hx]]]]].
    rewrite remove_from_first by assumption.
    rewrite !length_app. simpl. lia.
  - rewrite remove_from_absent by (apply existsb_false_Forall; exact E). lia.
Qed.

(** X5.  A removal leaves every component that is another object where it
    was: the components with another reference are the same, in the same
    order, before and after. *)
Theorem remove_from_keeps_others (components : list CartComponent)
        (component : CartComponent) :
  filter (fun y => negb (strict_eq y component))
         (remove_from components component)
  = filter (fun y => negb (strict_eq y component)) components.
Proof.
  destruct (existsb (fun y => strict_eq y component) components) eqn:E.
  - destruct (first_occurrence_split _ _ E) as [before [x [after [-> [Hb Hx]]]]].
    rewrite remove_from_first by assumption.
    rewrite !filter_app. simpl. rewrite Hx. reflexivity.
  - rewrite remove_from_absent by (apply existsb_false_Forall; exact E).
    reflexivity.
Qed.

(** X6.  The item count of a cart is the sum of the quantities of its
    top-level components; a bundle counts with its own quantity, whatever
    it contains. *)
Theorem getItemCount_top_level (customer : Customer.t)
        (before after : list CartComponent) r name q d children children'
        (strategies : list PriceModificationStrategy.t) :
  Cart.getItemCount
    (Cart.mk customer (before ++ Bundle r name q d children :: after)
             strategies)
  == sumQ (map getQuantity before) + q + sumQ (map getQuantity after)
  /\ Cart.getItemCount
       (Cart.mk customer (before ++ Bundle r name q d children :: after)
                strategies)
     == Cart.getItemCount
          (Cart.mk customer (before ++ Bundle r name q d children' :: after)
                   strategies).
Proof.
  unfold Cart.getItemCount. simpl.
  rewrite !fold_left_running_total, !map_app, !sumQ_app. simpl.
  split; ring.
Qed.

(** ** Bounds and order of the strategies *)

Ltac Qge_cases :=
  repeat match goal with
         | |- context [Qge_bool ?a ?b] => destruct (Qge_bool a b) eqn:?
         end;
  repeat match goal with
         | H : Qge_bool _ _ = true |- _ => apply Qge_bool_true in H
         | H : Qge_bool _ _ = false |- _ => apply Qge_bool_false in H
         end.

(** X7.  The volume tier never falls when the quantity grows, and the
    fraction lies between 0 and 20%. *)
Theorem getDiscountForQuantity_monotone (q1 q2 : Q) :
  q1 <= q2 ->
  VolumeDiscountStrategy.getDiscountForQuantity q1
  <= VolumeDiscountStrategy.getDiscountForQuantity q2
  /\ 0 <= VolumeDiscountStrategy.getDiscountForQuantity q1
  /\ VolumeDiscountStrategy.getDiscountForQuantity q1 <= 20 # 100.
Proof.
  intro Hle.
  rewrite (getDiscountForQuantity_tierFraction q1),
    (getDiscountForQuantity_tierFraction q2).
  unfold tierFraction. Qge_cases; repeat split; lra.
Qed.

Lemma getDiscountForQuantity_monotone_witness :
  VolumeDiscountStrategy.getDiscountForQuantity 15
  <= VolumeDiscountStrategy.getDiscountForQuantity 20
  /\ 0 <= VolumeDiscountStrategy.getDiscountForQuantity 15
  /\ VolumeDiscountStrategy.getDiscountForQuantity 15 <= 20 # 100.
Proof.
  apply (getDiscountForQuantity_monotone 15 20). discriminate.
Defined.

Lemma idDiscount_nonneg (items : list CartItem.t) (k : string) :
  Forall (fun item => 0 <= CartItem.price item) items ->
  0 <= idDiscount items k.
Proof.
  intro Hprices. unfold idDiscount.
  assert (Hp : 0 <= unitPriceOf items k).
  { unfold unitPriceOf.
    destruct (find _ items) as [item|] eqn:E; [|apply Qle_refl].
    apply find_some in E. rewrite Forall_forall in Hprices.
    apply Hprices. tauto. }
  rewrite <- Qmult_assoc. apply Qmult_le_0_compat; [exact Hp|].
  unfold tierFraction. Qge_cases;
    try (apply Qmult_le_0_compat; lra). lra.
Qed.

(** X8.  When no item has a negative price, the volume discount never
    raises the amount. *)
Theorem VolumeDiscount_never_raises (amount : Q) (today : Date.t)
        (context : PriceContext.t) :
  Forall (fun item => 0 <= CartItem.price item)
         (PriceContext.cartItems context) ->
  result (VolumeDiscountStrategy.apply amount) today context <= amount.
Proof.
  intro Hprices. rewrite VolumeDiscount_result. unfold volumeDiscounted.
  assert (0 <= sumQ (map (idDiscount (PriceContext.cartItems context))
                         (distinct (map CartItem.id
                                        (PriceContext.cartItems context)))));
    [|lra].
  apply sumQ_nonneg. apply Forall_forall. intros x Hx.
  apply in_map_iff in Hx. destruct Hx as [k [<- _]].
  apply idDiscount_nonneg. exact Hprices.
Qed.

Lemma VolumeDiscount_never_raises_witness :
  result (VolumeDiscountStrategy.apply 150) (Date.mk 0 1)
         (PriceContext.mk sample_customer [sample_item "a" 10 15] 150)
  <= 150.
Proof.
  apply (VolumeDiscount_never_raises 150 (Date.mk 0 1)
           (PriceContext.mk sample_customer [sample_item "a" 10 15] 150)).
  repeat constructor. discriminate.
Defined.

(** X9.  The new-customer discount takes nothing from an amount that is
    not negative beyond 100 and never turns it negative; for a new customer
    without sale items it is 5% up to an amount of 2000 and 100 from there
    on. *)
Theorem NewCustomerDiscount_bounds (amount : Q) (today : Date.t)
        (context : PriceContext.t) :
  (0 <= amount ->
   0 <= result (NewCustomerDiscountStrategy.apply amount) today context
   /\ result (NewCustomerDiscountStrategy.apply amount) today context <= amount
   /\ amount - result (NewCustomerDiscountStrategy.apply amount) today context
      <= 100)
  /\ (Customer.isNewCustomer (PriceContext.customer context) = true ->
      existsb (fun item => truthy (CartItem.isSaleItem item))
              (PriceContext.cartItems context) = false ->
      (amount <= 2000 ->
       result (NewCustomerDiscountStrategy.apply amount) today context
       == amount * (95 # 100))
      /\ (2000 <= amount ->
          result (NewCustomerDiscountStrategy.apply amount) today context
          == amount - 100)).
Proof.
  unfold result, NewCustomerDiscountStrategy.apply, bind, read, ret,
    NewCustomerDiscountStrategy.discountPercentage,
    NewCustomerDiscountStrategy.maxDiscount.
  cbn beta iota.
  destruct (Customer.isNewCustomer (PriceContext.customer context)); cbn.
  - destruct (existsb _ (PriceContext.cartItems context)); cbn.
    + split; [intro; repeat split; lra | intros _ E; discriminate E].
    + destruct (Q.min_spec (amount * (5 # 100)) 100) as [[Hlt E] | [Hle E]];
        rewrite E; repeat split; intros; lra.
  - split; [intro; repeat split; lra | intro E; discriminate E].
Qed.

Lemma NewCustomerDiscount_bounds_witness :
  (0 <= result (NewCustomerDiscountStrategy.apply 3000) (Date.mk 0 1)
               (PriceContext.mk new_customer [sample_item "a" 3000 1] 3000)
   /\ result (NewCustomerDiscountStrategy.apply 3000) (Date.mk 0 1)
             (PriceContext.mk new_customer [sample_item "a" 3000 1] 3000)
      <= 3000
   /\ 3000 - result (NewCustomerDiscountStrategy.apply 3000) (Date.mk 0 1)
               (PriceContext.mk new_customer [sample_item "a" 3000 1] 3000)
      <= 100)
  /\ result (NewCustomerDiscountStrategy.apply 3000) (Date.mk 0 1)
            (PriceContext.mk new_customer [sample_item "a" 3000 1] 3000)
     == 3000 - 100
  /\ result (NewCustomerDiscountStrategy.apply 100) (Date.mk 0 1)
            (PriceContext.mk new_customer [sample_item "a" 100 1] 100)
     == 100 * (95 # 100).
Proof.
  destruct (NewCustomerDiscount_bounds 3000 (Date.mk 0 1)
              (PriceContext.mk new_customer [sample_item "a" 3000 1] 3000))
    as [Hbounds Hnew].
  destruct (NewCustomerDiscount_bounds 100 (Date.mk 0 1)
              (PriceContext.mk new_customer [sample_item "a" 100 1] 100))
    as [_ Hsmall].
  split; [apply Hbounds; discriminate | split].
  - apply (proj2 (Hnew eq_refl eq_refl)). discriminate.
  - apply (proj1 (Hsmall eq_refl eq_refl)). discriminate.
Defined.

(** X10.  The birthday discount: the amount comes back as it is for a
    customer without a birthday on file, on a day that is not the birthday,
    for a new customer, and when some item is a sale item; otherwise 3% are
    taken off. *)
Theorem BirthdayDiscount_apply_cases (amount : Q) (today : Date.t)
        (context : PriceContext.t) :
  (Customer.birthday (PriceContext.customer context) = None ->
   result (BirthdayDiscountStrategy.apply amount) today context = amount)
  /\ (forall birthday,
         Customer.birthday (PriceContext.customer context) = Some birthday ->
         isBirthday today birthday = false ->
         result (BirthdayDiscountStrategy.apply amount) today context = amount)
  /\ (Customer.isNewCustomer (PriceContext.customer context) = true ->
      result (BirthdayDiscountStrategy.apply amount) today context = amount)
  /\ (existsb (fun item => truthy (CartItem.isSaleItem item))
              (PriceContext.cartItems context) = true ->
      result (BirthdayDiscountStrategy.apply amount) today context = amount)
  /\ (forall birthday,
         Customer.birthday (PriceContext.customer context) = Some birthday ->
         isBirthday today birthday = true ->
         Customer.isNewCustomer (PriceContext.customer context) = false ->
         existsb (fun item => truthy (CartItem.isSaleItem item))
                 (PriceContext.cartItems context) = false ->
         result (BirthdayDiscountStrategy.apply amount) today context
         = amount - amount * (3 # 100)).
Proof.
  unfold result, BirthdayDiscountStrategy.apply, bind, read, ret, new_Date.
  cbn beta iota.
  destruct (Customer.birthday (PriceContext.customer context)) as [b|];
    [|repeat split; intros; (reflexivity || discriminate)].
  destruct (isBirthday today b) eqn:Eb; cbn;
    [|repeat split; intros; (reflexivity || congruence)].
  destruct (Customer.isNewCustomer (PriceContext.customer context)); cbn;
    [repeat split; intros; (reflexivity || congruence)|].
  destruct (existsb _ (PriceContext.cartItems context)); cbn;
    repeat split; intros; (reflexivity || congruence).
Qed.

Lemma BirthdayDiscount_apply_cases_witness :
  result (BirthdayDiscountStrategy.apply 100) (Date.mk 4 1)
         (PriceContext.mk birthday_customer [sample_item "a" 100 1] 100)
  = 100 - 100 * (3 # 100)
  /\ result (BirthdayDiscountStrategy.apply 100) (Date.mk 4 2)
            (PriceContext.mk birthday_customer [sample_item "a" 100 1] 100)
     = 100
  /\ result (BirthdayDiscountStrategy.apply 100) (Date.mk 4 1)
            (PriceContext.mk sample_customer [sample_item "a" 100 1] 100)
     = 100.
Proof.
  destruct (BirthdayDiscount_apply_cases 100 (Date.mk 4 1)
              (PriceContext.mk birthday_customer [sample_item "a" 100 1] 100))
    as [_ [_ [_ [_ Hdiscount]]]].
  destruct (BirthdayDiscount_apply_cases 100 (Date.mk 4 2)
              (PriceContext.mk birthday_customer [sample_item "a" 100 1] 100))
    as [_ [Hother _]].
  destruct (BirthdayDiscount_apply_cases 100 (Date.mk 4 1)
              (PriceContext.mk sample_customer [sample_item "a" 100 1] 100))
    as [Hnone _].
  split; [|split].
  - apply (Hdiscount (Date.mk 4 1)); reflexivity.
  - apply (Hother (Date.mk 4 1)); reflexivity.
  - apply Hnone. reflexivity.
Defined.

(** Runs the body of [apply] and splits on the gates it meets. *)
Ltac run_apply :=
  rewrite ?applyStrategies_pipeline;
  unfold pipeline, result, NewCustomerDiscountStrategy.apply,
    BirthdayDiscountStrategy.apply, VolumeDiscountStrategy.apply,
    VATStrategy.apply, bind, read, ret, new_Date,
    NewCustomerDiscountStrategy.discountPercentage,
    NewCustomerDiscountStrategy.maxDiscount,
    BirthdayDiscountStrategy.discountPercentage, VATStrategy.vatRate;
  cbn;
  repeat (match goal with
          | H : ?x = true |- context [?x] => rewrite H
          | H : ?x = false |- context [?x] => rewrite H
          | H : ?x = Some _ |- context [?x] => rewrite H
          | H : ?x = None |- context [?x] => rewrite H
          | |- context [Customer.isNewCustomer ?c] =>
              destruct (Customer.isNewCustomer c) eqn:?
          | |- context [Customer.birthday ?c] =>
              destruct (Customer.birthday c) eqn:?
          | |- context [isBirthday ?t ?b] => destruct (isBirthday t b) eqn:?
          | |- context [existsb ?f ?l] => destruct (existsb f l) eqn:?
          end; cbn);
  unfold NewCustomerDiscountStrategy.discountPercentage,
    NewCustomerDiscountStrategy.maxDiscount,
    BirthdayDiscountStrategy.discountPercentage, VATStrategy.vatRate.

(** X11.  The new-customer discount and the birthday discount never both
    apply: for every amount and context one of them returns the amount as it
    is; so the order in which the two are registered makes no difference. *)
Theorem customer_discounts_exclusive (amount : Q) (today : Date.t)
        (context : PriceContext.t) :
  (result (NewCustomerDiscountStrategy.apply amount) today context = amount
   \/ result (BirthdayDiscountStrategy.apply amount) today context = amount)
  /\ Cart.applyStrategies today (PriceContext.customer context)
              (PriceContext.cartItems context)
              [NewCustomerDiscountStrategy.strategy;
               BirthdayDiscountStrategy.strategy] amount
     = Cart.applyStrategies today (PriceContext.customer context)
                (PriceContext.cartItems context)
                [BirthdayDiscountStrategy.strategy;
                 NewCustomerDiscountStrategy.strategy] amount.
Proof.
  destruct context as [customer items intermediate].
  split.
  - destruct (Customer.isNewCustomer customer) eqn:Hnew.
    + right. run_apply; reflexivity.
    + left. run_apply; reflexivity.
  - run_apply; reflexivity.
Qed.

Lemma customer_discounts_blocked (today : Date.t) (customer : Customer.t)
      (items : list CartItem.t) (strategies : list PriceModificationStrategy.t)
      (amount : Q) :
  existsb (fun item => truthy (CartItem.isSaleItem item)) items = true ->
  Forall (fun s => s = NewCustomerDiscountStrategy.strategy
                   \/ s = BirthdayDiscountStrategy.strategy) strategies ->
  Cart.applyStrategies today customer items strategies amount = amount.
Proof.
  intros Hsale Hrules. induction Hrules as [|s rest Hs _ IH]; simpl.
  - reflexivity.
  - replace (result (PriceModificationStrategy.apply s amount) today
                    (PriceContext.mk customer items amount)) with amount.
    + exact IH.
    + destruct Hs as [-> | ->]; run_apply; reflexivity.
Qed.

(** X13.  One sale item anywhere in the cart, also inside nested bundles,
    switches off the new-customer and the birthday discount for the whole
    cart: with only these two registered, the total is the rounded
    subtotal. *)
Theorem sale_item_blocks_customer_discounts (today : Date.t) (cart : Cart.t) :
  existsb (fun item => truthy (CartItem.isSaleItem item))
          (flat_map flattenItems (Cart.components cart)) = true ->
  Forall (fun s => s = NewCustomerDiscountStrategy.strategy
                   \/ s = BirthdayDiscountStrategy.strategy)
         (Cart.priceStrategies cart) ->
  preRounding today cart = Cart.getSubtotal cart
  /\ Cart.calculateTotal today cart = round_to_cents (Cart.getSubtotal cart).
Proof.
  intros Hsale Hrules. rewrite <- getAllCartItems_flattenItems in Hsale.
  assert (H : preRounding today cart = Cart.getSubtotal cart).
  { unfold preRounding. apply customer_discounts_blocked; assumption. }
  split; [exact H|].
  unfold Cart.calculateTotal. fold (preRounding today cart). rewrite H.
  reflexivity.
Qed.

Lemma sale_item_blocks_customer_discounts_witness :
  preRounding (Date.mk 0 1) cart_with_nested_sale_item
  = Cart.getSubtotal cart_with_nested_sale_item
  /\ Cart.calculateTotal (Date.mk 0 1) cart_with_nested_sale_item
     = round_to_cents (Cart.getSubtotal cart_with_nested_sale_item).
Proof.
  apply (sale_item_blocks_customer_discounts (Date.mk 0 1)
           cart_with_nested_sale_item).
  - reflexivity.
  - constructor; [left; reflexivity|].
    constructor; [right; reflexivity | constructor].
Defined.

Lemma reference_strategy_monotone (s : PriceModificationStrategy.t)
      (today : Date.t) (customer : Customer.t) (items : list CartItem.t)
      (a b : Q) :
  In s reference_set ->
  a <= b ->
  result (PriceModificationStrategy.apply s a) today
         (PriceContext.mk customer items a)
  <= result (PriceModificationStrategy.apply s b) today
            (PriceContext.mk customer items b).
Proof.
  intros Hs Hab. simpl in Hs.
  destruct Hs as [<- | [<- | [<- | [<- | []]]]]; run_apply;
    try exact Hab.
  - destruct (Q.min_spec (a * (5 # 100)) 100) as [[H1 E1] | [H1 E1]];
      destruct (Q.min_spec (b * (5 # 100)) 100) as [[H2 E2] | [H2 E2]];
      rewrite E1, E2; lra.
  - lra.
  - apply Qplus_le_compat; [exact Hab | apply Qle_refl].
  - lra.
Qed.

Lemma round_to_cents_monotone (x y : Q) :
  x <= y -> round_to_cents x <= round_to_cents y.
Proof.
  intro H. unfold round_to_cents.
  apply Qmult_le_compat_r; [|discriminate].
  rewrite <- Zle_Qle. apply Qfloor_resp_le. lra.
Qed.

Lemma applyStrategies_monotone (today : Date.t) (customer : Customer.t)
      (items : list CartItem.t) (strategies : list PriceModificationStrategy.t)
      (a b : Q) :
  Forall (fun s => In s reference_set) strategies ->
  a <= b ->
  Cart.applyStrategies today customer items strategies a
  <= Cart.applyStrategies today customer items strategies b.
Proof.
  intros Hrules. revert a b.
  induction Hrules as [|s rest Hs _ IH]; intros a b Hab; simpl.
  - exact Hab.
  - apply IH. apply reference_strategy_monotone; assumption.
Qed.

(** X14.  Of two carts with the same customer, the same flattened items
    and the same strategies, all of the reference set, the cart with the
    smaller subtotal never has the larger total: lowering a subtotal, by a
    bundle discount for one, never raises the total. *)
Theorem total_monotone_in_subtotal (today : Date.t) (cart1 cart2 : Cart.t) :
  Cart.customer cart1 = Cart.customer cart2 ->
  Cart.priceStrategies cart1 = Cart.priceStrategies cart2 ->
  Cart.getAllCartItems cart1 = Cart.getAllCartItems cart2 ->
  Forall (fun s => In s reference_set) (Cart.priceStrategies cart1) ->
  Cart.getSubtotal cart1 <= Cart.getSubtotal cart2 ->
  Cart.calculateTotal today cart1 <= Cart.calculateTotal today cart2.
Proof.
  intros Hc Hs Hi Hrules Hsub.
  unfold Cart.calculateTotal. rewrite <- Hc, <- Hs, <- Hi.
  apply round_to_cents_monotone.
  apply applyStrategies_monotone; assumption.
Qed.

Lemma total_monotone_in_subtotal_witness :
  Cart.calculateTotal (Date.mk 4 1) cart_large_discount
  <= Cart.calculateTotal (Date.mk 4 1) cart_small_discount.
Proof.
  apply (total_monotone_in_subtotal (Date.mk 4 1) cart_large_discount
           cart_small_discount);
    try reflexivity.
  - apply Forall_forall. intros s Hs. exact Hs.
  - discriminate.
Defined.

(** ** More on bundles *)

Lemma children_prices_nonneg (children : list CartComponent) :
  forallb in_range children = true -> 0 <= sumQ (map getPrice children).
Proof.
  intro Hch. rewrite forallb_forall in Hch.
  apply sumQ_nonneg. apply Forall_forall. intros x Hx.
  apply in_map_iff in Hx. destruct Hx as [c [<- Hc]].
  apply in_range_getPrice_nonneg. apply Hch. exact Hc.
Qed.

(** X15.  With children within the ranges of the data model and a quantity
    that is not negative, a higher bundle discount never gives a higher
    bundle price; in particular no discount gives more than the price at
    discount 0. *)
Theorem bundle_discount_lowers_price r name (q d1 d2 : Q) children :
  0 <= q ->
  forallb in_range children = true ->
  d1 <= d2 ->
  getPrice (Bundle r name q d2 children)
  <= getPrice (Bundle r name q d1 children).
Proof.
  intros Hq Hch Hd. rewrite !getPrice_Bundle_sum.
  pose proof (children_prices_nonneg children Hch) as Hsum.
  apply Qmult_le_compat_r; [|exact Hq].
  rewrite !(Qmult_comm (sumQ (map getPrice children))).
  apply Qmult_le_compat_r; [|exact Hsum].
  destruct (Qgt_bool d2 0) eqn:E2; destruct (Qgt_bool d1 0) eqn:E1;
    try apply Qgt_bool_true in E1; try apply Qgt_bool_true in E2;
    try apply Qgt_bool_false in E1; try apply Qgt_bool_false in E2; lra.
Qed.

Lemma bundle_discount_lowers_price_witness :
  getPrice (Bundle 3 "b" 2 (1 # 2) [product_a; product_b])
  <= getPrice (Bundle 3 "b" 2 (1 # 10) [product_a; product_b]).
Proof.
  apply (bundle_discount_lowers_price 3 "b" 2 (1 # 10) (1 # 2)
           [product_a; product_b]);
    [discriminate | reflexivity | discriminate].
Defined.

(** X16.  Nothing stops a discount of 1 or more: at a discount of 1 the
    bundle costs nothing, and above 1 a bundle with a positive quantity
    whose children sum to a positive price has a negative price. *)
Theorem bundle_discount_of_one_or_more r name (q d : Q) children :
  (d == 1 -> getPrice (Bundle r name q d children) == 0)
  /\ (1 < d -> 0 < q -> 0 < sumQ (map getPrice children) ->
      getPrice (Bundle r name q d children) < 0).
Proof.
  split.
  - intro Hd. rewrite getPrice_Bundle_sum.
    assert (E : Qgt_bool d 0 = true) by (apply Qgt_bool_true; lra).
    rewrite E, Hd. ring.
  - intros Hd Hq Hsum. rewrite getPrice_Bundle_sum.
    assert (E : Qgt_bool d 0 = true) by (apply Qgt_bool_true; lra).
    rewrite E.
    assert (H : 0 < sumQ (map getPrice children) * (d - 1) * q).
    { apply Qmult_lt_0_compat; [|exact Hq].
      apply Qmult_lt_0_compat; [exact Hsum | lra]. }
    assert (Heq : sumQ (map getPrice children) * (1 - d) * q
                  == - (sumQ (map getPrice children) * (d - 1) * q)) by ring.
    rewrite Heq. lra.
Qed.

Lemma bundle_discount_of_one_or_more_witness :
  getPrice (Bundle 3 "b" 2 1 [product_a; product_b]) == 0
  /\ getPrice (Bundle 3 "b" 2 (3 # 2) [product_a; product_b]) < 0.
Proof.
  split.
  - apply (proj1 (bundle_discount_of_one_or_more 3 "b" 2 1
                    [product_a; product_b])).
    reflexivity.
  - apply (proj2 (bundle_discount_of_one_or_more 3 "b" 2 (3 # 2)
                    [product_a; product_b])); reflexivity.
Defined.

(** X17.  The flattened item list does not see bundles: replacing a
    top-level bundle by its children leaves the item list as it is, and
    with it the bonus points, whatever the quantity and the discount of the
    bundle. *)
Theorem bundle_transparent_to_items (today : Date.t) (customer : Customer.t)
        (before after : list CartComponent) r name (q d : Q) children
        (strategies : list PriceModificationStrategy.t) :
  Cart.getAllCartItems
    (Cart.mk customer (before ++ Bundle r name q d children :: after)
             strategies)
  = Cart.getAllCartItems
      (Cart.mk customer (before ++ children ++ after) strategies)
  /\ Cart.calculateBonusPoints today
       (Cart.mk customer (before ++ Bundle r name q d children :: after)
                strategies)
     = Cart.calculateBonusPoints today
         (Cart.mk customer (before ++ children ++ after) strategies).
Proof.
  assert (H : Cart.getAllCartItems
                (Cart.mk customer
                         (before ++ Bundle r name q d children :: after)
                         strategies)
              = Cart.getAllCartItems
                  (Cart.mk customer (before ++ children ++ after) strategies)).
  { rewrite !getAllCartItems_flattenItems. simpl Cart.components.
    rewrite !flat_map_app. reflexivity. }
  split; [exact H|].
  unfold Cart.calculateBonusPoints. rewrite H. reflexivity.
Qed.

(** ** Registering strategies *)

Lemma applyStrategies_app today customer items rules1 rules2 start :
  Cart.applyStrategies today customer items (rules1 ++ rules2) start
  = Cart.applyStrategies today customer items rules2
      (Cart.applyStrategies today customer items rules1 start).
Proof.
  revert start. induction rules1 as [|s rules1 IH]; intro start; simpl.
  - reflexivity.
  - apply IH.
Qed.

(** X18.  A strategy registered last is applied to the amount that the
    strategies registered before it leave behind, with the same customer and
    item list; after [clearStrategies] the total is the rounded subtotal. *)
Theorem addPriceStrategy_composes (today : Date.t) (cart : Cart.t)
        (strategy : PriceModificationStrategy.t) :
  preRounding today (Cart.addPriceStrategy cart strategy)
  = result (PriceModificationStrategy.apply strategy (preRounding today cart))
           today
           (PriceContext.mk (Cart.customer cart) (Cart.getAllCartItems cart)
                            (preRounding today cart))
  /\ Cart.calculateTotal today
       (Cart.clearStrategies (Cart.addPriceStrategy cart strategy))
     = round_to_cents (Cart.getSubtotal cart).
Proof.
  split.
  - unfold preRounding. simpl Cart.priceStrategies.
    rewrite applyStrategies_app. reflexivity.
  - reflexivity.
Qed.

(** ** Bonus points and the floor *)

Lemma sumZ_floor_bounds (values : list Q) :
  inject_Z (sumZ (map Qfloor values)) <= sumQ values
  /\ sumQ values - inject_Z (Z.of_nat (List.length values))
     <= inject_Z (sumZ (map Qfloor values)).
Proof.
  induction values as [|x values [IHle IHge]].
  - simpl. split; discriminate.
  - cbn [map sumZ sumQ fold_right List.length].
    rewrite inject_Z_plus, Nat2Z.inj_succ.
    unfold Z.succ. rewrite inject_Z_plus.
    change (inject_Z 1) with 1.
    pose proof (Qfloor_le x) as Hle. pose proof (Qlt_floor x) as Hlt.
    rewrite inject_Z_plus in Hlt. change (inject_Z 1) with 1 in Hlt.
    fold (sumZ (map Qfloor values)). fold (sumQ values).
    split; lra.
Qed.

(** X19.  On a day that is not the customer's birthday the bonus points
    never exceed the value (price times quantity) of the bonus-eligible
    items, and fall short of it by at most one point per eligible item. *)
Theorem bonus_points_bounds (today : Date.t) (cart : Cart.t) :
  match Customer.birthday (Cart.customer cart) with
  | Some birthday => isBirthday today birthday
  | None => false
  end = false ->
  Cart.calculateBonusPoints today cart
  <= sumQ (map (fun item => CartItem.price item * CartItem.quantity item)
               (filter (fun item => truthy (CartItem.isEligibleForBonus item))
                       (Cart.getAllCartItems cart)))
  /\ sumQ (map (fun item => CartItem.price item * CartItem.quantity item)
               (filter (fun item => truthy (CartItem.isEligibleForBonus item))
                       (Cart.getAllCartItems cart)))
     - inject_Z (Z.of_nat (List.length
          (filter (fun item => truthy (CartItem.isEligibleForBonus item))
                  (Cart.getAllCartItems cart))))
     <= Cart.calculateBonusPoints today cart.
Proof.
  intro Hday.
  set (eligible := filter (fun item => truthy (CartItem.isEligibleForBonus item))
                          (Cart.getAllCartItems cart)).
  assert (H : Cart.calculateBonusPoints today cart
              == inject_Z (sumZ (map Qfloor
                   (map (fun item => CartItem.price item * CartItem.quantity item)
                        eligible)))).
  { unfold Cart.calculateBonusPoints, Math_floor.
    pose proof (fold_left_bonus
                  (fun item => truthy (CartItem.isEligibleForBonus item))
                  (fun item =>
                     Qfloor (CartItem.price item * CartItem.quantity item))
                  (Cart.getAllCartItems cart) 0) as Hsum.
    fold eligible in Hsum. rewrite map_map.
    destruct (Customer.birthday (Cart.customer cart)) as [birthday|].
    - rewrite Hday, Hsum. ring.
    - rewrite Hsum. ring. }
  pose proof (sumZ_floor_bounds
                (map (fun item => CartItem.price item * CartItem.quantity item)
                     eligible)) as [Hle Hge].
  rewrite length_map in Hge. rewrite H. split; assumption.
Qed.

Lemma bonus_points_bounds_witness :
  Cart.calculateBonusPoints (Date.mk 0 1) cart_with_bonus_items
  <= sumQ (map (fun item => CartItem.price item * CartItem.quantity item)
               (filter (fun item => truthy (CartItem.isEligibleForBonus item))
                       (Cart.getAllCartItems cart_with_bonus_items)))
  /\ sumQ (map (fun item => CartItem.price item * CartItem.quantity item)
               (filter (fun item => truthy (CartItem.isEligibleForBonus item))
                       (Cart.getAllCartItems cart_with_bonus_items)))
     - inject_Z (Z.of_nat (List.length
          (filter (fun item => truthy (CartItem.isEligibleForBonus item))
                  (Cart.getAllCartItems cart_with_bonus_items))))
     <= Cart.calculateBonusPoints (Date.mk 0 1) cart_with_bonus_items.
Proof.
  apply (bonus_points_bounds (Date.mk 0 1) cart_with_bonus_items). reflexivity.
Defined.

(** ** More on the composite and on the volume discount *)

(** X20.  Adding a child to a bundle raises the price of the bundle by the
    price of the child after the bundle's discount, times the bundle's
    quantity, and appends the child's items to the items of the bundle. *)
Theorem Bundle_add_effect r name (q d : Q) children
        (component : CartComponent) :
  getPrice (Bundle_add (Bundle r name q d children) component)
  == getPrice (Bundle r name q d children)
     + getPrice component * (if Qgt_bool d 0 then 1 - d else 1) * q
  /\ getAllItems (Bundle_add (Bundle r name q d children) component)
     = getAllItems (Bundle r name q d children) ++ getAllItems component.
Proof.
  split.
  - cbn [Bundle_add]. rewrite !getPrice_Bundle_sum, map_app, sumQ_app.
    simpl. ring.
  - rewrite !getAllItems_flattenItems. simpl.
    rewrite flat_map_app. simpl. rewrite app_nil_r. reflexivity.
Qed.

Lemma In_distinct (k : string) (ids : list string) :
  In k ids -> In k (distinct ids).
Proof.
  induction ids as [|k0 ids IH]; simpl; intro H.
  - exact H.
  - destruct (String.eqb_spec k0 k) as [E | Hne]; [left; exact E|].
    right. apply filter_In. split.
    + apply IH. destruct H as [E | H]; [contradiction | exact H].
    + apply negb_true_iff. apply String.eqb_neq. exact Hne.
Qed.

Lemma JsMap_get_absent (m : JsMap.t) (k : string) :
  ~ In k (JsMap.keys m) -> JsMap.get m k = None.
Proof.
  unfold JsMap.keys. induction m as [|[k0 v0] m IH]; simpl; intro H.
  - reflexivity.
  - destruct (String.eqb_spec k0 k) as [E | _]; [exfalso; auto|].
    apply IH. intro Hin. apply H. right. exact Hin.
Qed.

Lemma JsMap_keys_In (m : JsMap.t) (k : string) :
  In k (JsMap.keys m) -> exists v, In (k, v) m.
Proof.
  unfold JsMap.keys. intro H. apply in_map_iff in H.
  destruct H as [[k' v] [E Hin]]. simpl in E. subst k'.
  exists v. exact Hin.
Qed.

(** X21.  The map built by the volume discount has one entry per item id,
    in the order in which the ids first occur; the entry of an id holds the
    quantities of all items with that id, summed; an id that no item
    carries has no entry. *)
Theorem groupQuantities_spec (items : list CartItem.t) :
  JsMap.keys (VolumeDiscountStrategy.groupQuantities items)
  = distinct (map CartItem.id items)
  /\ NoDup (JsMap.keys (VolumeDiscountStrategy.groupQuantities items))
  /\ (forall k,
         In k (map CartItem.id items) ->
         exists v,
           JsMap.get (VolumeDiscountStrategy.groupQuantities items) k = Some v
           /\ v == summedQuantity items k)
  /\ (forall k,
         ~ In k (map CartItem.id items) ->
         JsMap.get (VolumeDiscountStrategy.groupQuantities items) k = None).
Proof.
  assert (Hnd : NoDup (JsMap.keys (VolumeDiscountStrategy.groupQuantities items))).
  { rewrite groupQuantities_keys. apply distinct_NoDup. }
  split; [apply groupQuantities_keys | split; [exact Hnd | split]].
  - intros k Hk. apply In_distinct in Hk.
    rewrite <- groupQuantities_keys in Hk.
    destruct (JsMap_keys_In _ _ Hk) as [v Hv].
    exists v. split.
    + apply JsMap_get_In; assumption.
    + apply groupQuantities_values. exact Hv.
  - intros k Hk. apply JsMap_get_absent.
    rewrite groupQuantities_keys. intro Hin. apply Hk.
    apply distinct_In. exact Hin.
Qed.

Lemma groupQuantities_spec_witness :
  (exists v,
      JsMap.get (VolumeDiscountStrategy.groupQuantities
                   [sample_item "a" 10 6; sample_item "b" 5 1;
                    sample_item "a" 10 6]) "a" = Some v
      /\ v == summedQuantity [sample_item "a" 10 6; sample_item "b" 5 1;
                              sample_item "a" 10 6] "a")
  /\ JsMap.get (VolumeDiscountStrategy.groupQuantities
                  [sample_item "a" 10 6; sample_item "b" 5 1;
                   sample_item "a" 10 6]) "z" = None.
Proof.
  destruct (groupQuantities_spec [sample_item "a" 10 6; sample_item "b" 5 1;
                                  sample_item "a" 10 6])
    as [_ [_ [Hpresent Habsent]]].
  split.
  - apply Hpresent. simpl. left. reflexivity.
  - apply Habsent. simpl. intros [E | [E | [E | []]]]; discriminate E.
Defined.

(** X22.  The volume discount takes the same deduction off whatever the
    amount is, so that it does not commute with VAT: with VAT registered
    before the volume discount the amount comes out higher by 7.7% of the
    deduction. *)
Theorem VolumeDiscount_and_VAT_order (today : Date.t) (customer : Customer.t)
        (items : list CartItem.t) (amount : Q) :
  Cart.applyStrategies today customer items
           [VATStrategy.strategy; VolumeDiscountStrategy.strategy] amount
  == Cart.applyStrategies today customer items
              [VolumeDiscountStrategy.strategy; VATStrategy.strategy] amount
     + (77 # 1000)
       * VolumeDiscountStrategy.sumDiscounts
           items (VolumeDiscountStrategy.groupQuantities items)
  /\ result (VolumeDiscountStrategy.apply amount) today
            (PriceContext.mk customer items amount)
     == amount
        - VolumeDiscountStrategy.sumDiscounts
            items (VolumeDiscountStrategy.groupQuantities items).
Proof.
  cbn [Cart.applyStrategies PriceModificationStrategy.apply
       VATStrategy.strategy VolumeDiscountStrategy.strategy].
  unfold result, VolumeDiscountStrategy.apply, VATStrategy.apply,
    bind, read, ret, VATStrategy.vatRate.
  cbn [fst PriceContext.cartItems].
  set (deduction := VolumeDiscountStrategy.sumDiscounts
                      items (VolumeDiscountStrategy.groupQuantities items)).
  split; ring.
Qed.

(** * Properties on doubles *)

Import PrimFloat.

(** ** The flattened item list *)




(** ** Bonus points *)



(** 100 pieces at 0.29 make 28 points, the double product being just below
    29; three pieces at 2.5 in a bundle make 7. *)
Example double_bonus_points (today : Date.t) :
  Double.Cart.calculateBonusPoints today Double.cart_with_bonus_items
  = 35%float.
Proof. reflexivity. Qed.

(** ** Rounding *)

(** The claim of C4 fails below zero, on a cart within the ranges of the
    data model: the amount before rounding is -0.125, [calculateTotal]
    returns -0.12, rounding half away from zero gives -0.13; the two are
    not even equal as numbers. *)
Lemma double_total_not_half_away_from_zero :
  ~ (forall today cart,
        forallb Double.in_range (Double.Cart.components cart) = true ->
        PrimFloat.eqb
          (Double.Cart.calculateTotal today cart)
          (Double.half_away_cents (Double.Cart.preRounding today cart))
        = true).
Proof.
  intro H.
  assert (Hrange : forallb Double.in_range
                     (Double.Cart.components Double.cart_below_zero) = true)
    by (vm_compute; reflexivity).
  specialize (H (Date.mk 0 1) Double.cart_below_zero Hrange).
  vm_compute in H. discriminate H.
Qed.

Lemma Qfloor_half_up_bounds (q : Q) :
  q - (1 # 2) < inject_Z (Qfloor (q + (1 # 2)))
  /\ inject_Z (Qfloor (q + (1 # 2))) <= q + (1 # 2).
Proof.
  pose proof (Qfloor_le (q + (1 # 2))) as Hle.
  pose proof (Qlt_floor (q + (1 # 2))) as Hlt.
  rewrite inject_Z_plus in Hlt. change (inject_Z 1) with 1 in Hlt.
  split; lra.
Qed.

(** C4, as the code has it.  The total is [Math.round (a * 100) / 100] in
    double arithmetic, [a] being the amount after the last strategy.  When
    the double product [a * 100] has a fraction, [Math.round] gives the
    integer nearest to its exact value, a tie on the half going up; when
    that value is not negative this is rounding half away from zero.  A
    product without fraction is left as it is.  For a new customer with one
    item of price 100 that is not on sale, and the new-customer discount
    followed by VAT, the amount before rounding is 102.315 and the total is
    102.32. *)
Theorem calculateTotal_double_rounding (today : Date.t)
        (cart : Double.Cart.t) :
  Double.Cart.calculateTotal today cart
  = PrimFloat.div
      (Double.Math_round
         (PrimFloat.mul (Double.Cart.preRounding today cart) 100%float))
      100%float
  /\ (forall s m e,
         FloatOps.Prim2SF
           (PrimFloat.mul (Double.Cart.preRounding today cart) 100%float)
         = SpecFloat.S754_finite s m e ->
         (e < 0)%Z ->
         Double.Math_round
           (PrimFloat.mul (Double.Cart.preRounding today cart) 100%float)
         = Double.integer s (Qfloor (Double.exact_of s m e + (1 # 2)))
         /\ Double.exact_of s m e - (1 # 2)
            < inject_Z (Qfloor (Double.exact_of s m e + (1 # 2)))
         /\ inject_Z (Qfloor (Double.exact_of s m e + (1 # 2)))
            <= Double.exact_of s m e + (1 # 2)
         /\ (0 <= Double.exact_of s m e ->
             Qfloor (Double.exact_of s m e + (1 # 2))
             = round_half_away_from_zero (Double.exact_of s m e)))
  /\ (forall s m e,
         FloatOps.Prim2SF
           (PrimFloat.mul (Double.Cart.preRounding today cart) 100%float)
         = SpecFloat.S754_finite s m e ->
         (0 <= e)%Z ->
         Double.Math_round
           (PrimFloat.mul (Double.Cart.preRounding today cart) 100%float)
         = PrimFloat.mul (Double.Cart.preRounding today cart) 100%float)
  /\ Double.Cart.preRounding today Double.cart_discount_then_vat
     = 102.315%float
  /\ Double.Cart.calculateTotal today Double.cart_discount_then_vat
     = 102.32%float.
Proof.
  split; [reflexivity|]. split; [|split; [|split; reflexivity]].
  - intros s m e Hsf He. unfold Double.Math_round. rewrite Hsf.
    destruct (Z.leb_spec 0 e) as [Hge | _]; [lia|].
    split; [reflexivity|].
    destruct (Qfloor_half_up_bounds (Double.exact_of s m e)) as [Hlo Hhi].
    split; [exact Hlo | split; [exact Hhi|]].
    intro Hpos. symmetry. apply round_half_away_nonneg. exact Hpos.
  - intros s m e Hsf He. unfold Double.Math_round. rewrite Hsf.
    destruct (Z.leb_spec 0 e) as [_ | Hlt]; [reflexivity | lia].
Qed.

Lemma calculateTotal_double_rounding_witness :
  Double.Math_round
    (PrimFloat.mul
       (Double.Cart.preRounding (Date.mk 0 1) Double.cart_discount_then_vat)
       100%float)
  = Double.integer false 10232
  /\ (20463 # 2) - (1 # 2) < inject_Z 10232
  /\ inject_Z 10232 <= (20463 # 2) + (1 # 2)
  /\ 10232%Z = round_half_away_from_zero (20463 # 2)
  /\ Double.Math_round
       (PrimFloat.mul
          (Double.Cart.preRounding (Date.mk 0 1) Double.cart_below_zero) 100%float)
     = Double.integer true (- 12).
Proof.
  destruct (calculateTotal_double_rounding (Date.mk 0 1)
              Double.cart_discount_then_vat) as [_ [Hround _]].
  destruct (Hround false (20463 * 2 ^ 38)%positive (- 39)%Z)
    as [Hr [Hlo [Hhi Haway]]].
  { vm_compute. reflexivity. }
  { reflexivity. }
  destruct (calculateTotal_double_rounding (Date.mk 0 1)
              Double.cart_below_zero) as [_ [Hneg _]].
  destruct (Hneg true (25 * 2 ^ 48)%positive (- 49)%Z) as [Hn _].
  { vm_compute. reflexivity. }
  { reflexivity. }
  assert (E : Double.exact_of false (20463 * 2 ^ 38) (- 39) == 20463 # 2)
    by (vm_compute; reflexivity).
  assert (F : Qfloor (Double.exact_of false (20463 * 2 ^ 38) (- 39) + (1 # 2))
              = 10232%Z) by (vm_compute; reflexivity).
  assert (G : Qfloor (Double.exact_of true (25 * 2 ^ 48) (- 49) + (1 # 2))
              = (- 12)%Z) by (vm_compute; reflexivity).
  rewrite F in Hr, Hlo, Hhi, Haway. rewrite G in Hn.
  rewrite E in Hlo, Hhi.
  split; [exact Hr | split; [exact Hlo | split; [exact Hhi | split]]].
  - rewrite Haway by (vm_compute; discriminate).
    vm_compute. reflexivity.
  - exact Hn.
Defined.

(** Totals of the code that exact arithmetic would round otherwise. *)
Example double_total_vat_25 (today : Date.t) :
  Double.Cart.calculateTotal today
    (Double.Cart.mk Double.customer
       [Double.Product 1 (Double.item "a" 25 1)]
       [Double.VATStrategy.strategy])
  = 26.92%float.
Proof. reflexivity. Qed.

Example double_total_1_005 (today : Date.t) :
  Double.Cart.calculateTotal today
    (Double.Cart.mk Double.customer
       [Double.Product 1 (Double.item "a" 1.005 1)] [])
  = 1%float.
Proof. reflexivity. Qed.

Example double_total_vat_then_discount (today : Date.t) :
  Double.Cart.calculateTotal today
    (Double.Cart.mk Double.new_customer
       [Double.Product 1 (Double.item "a" 100 1)]
       [Double.VATStrategy.strategy;
        Double.NewCustomerDiscountStrategy.strategy])
  = 102.31%float.
Proof. reflexivity. Qed.

Example double_total_below_zero (today : Date.t) :
  Double.Cart.preRounding today Double.cart_below_zero = (-0.125)%float
  /\ Double.Cart.calculateTotal today Double.cart_below_zero = (-0.12)%float
  /\ Double.half_away_cents
       (Double.Cart.preRounding today Double.cart_below_zero)
     = (-0.13)%float.
Proof. repeat split. Qed.
